(** * Manual bus stop logger: a shallow embedding and its specification

    The program under study is the single Python script
    [ge_stadedegeneve-bernex_p+r_40.py]: it prompts once per stop of a fixed
    schedule, stores the wall-clock time of each prompt in the dictionary
    [actual_times], prints a "tail view" after each prompt and finally writes
    a CSV file.

    Layout of this development:
    - [Py]: the few Python built-ins the script relies on;
    - [Datetime]: the part of the [datetime] module the script relies on;
    - [Interp]: the interpreter state and a state-and-exception monad;
    - [Logger]: the script itself, function by function;
    - the specification-side definitions and the theorems. *)

From Stdlib Require Import ZArith String Ascii List Lia.
From stdpp Require Import base option list gmap strings pretty.

Open Scope string_scope.
Open Scope Z_scope.

(* ===================================================================== *)
(** ** Python built-ins *)
(* ===================================================================== *)

Module Py.

(** [str(n)] for an [int]. *)
Definition str (n : Z) : string := pretty n.

(** A Python [str] is a sequence of code points; the strings of this file
    are UTF-8 byte sequences.  [len] counts the bytes that start a code
    point, i.e. those that are not continuation bytes [10xxxxxx]. *)
Definition is_continuation (c : ascii) : bool :=
  let n := Z.of_N (N_of_ascii c) in (128 <=? n) && (n <? 192).

Fixpoint len (s : string) : nat :=
  match s with
  | EmptyString => 0%nat
  | String c r => if is_continuation c then len r else S (len r)
  end.

(** [s.isascii()]: every character is below 128. *)
Fixpoint ascii_only (s : string) : bool :=
  match s with
  | EmptyString => true
  | String c r => (Z.of_N (N_of_ascii c) <? 128) && ascii_only r
  end.

Fixpoint fill (c : ascii) (n : nat) : string :=
  match n with
  | O => ""
  | S k => String c (fill c k)
  end.

(** [format(s, "<w")]: left-justify in a field of [w] code points; longer
    strings are left as they are. *)
Definition ljust (w : nat) (s : string) : string :=
  s ++ fill " " (w - len s).

(** Zero-padded decimal rendering of a non-negative field, as the
    [strftime] directives [%H], [%M], [%S], [%m], [%d] (width 2) produce it,
    and [%Y] (width 4) for the years the script can run in. *)
Definition zfill (w : nat) (n : Z) : string :=
  let d := str n in fill "0" (w - String.length d) ++ d.

Definition LF : string := String "010" "".
Definition ESC : string := String "027" "".

End Py.

(* ===================================================================== *)
(** ** The [datetime] module *)
(* ===================================================================== *)

Module Datetime.

(** A naive [datetime] object, field by field. *)
Record datetime : Type := mk_datetime {
  year : Z; month : Z; day : Z;
  hour : Z; minute : Z; second : Z; microsecond : Z
}.

Definition is_leap (y : Z) : bool :=
  (y mod 4 =? 0) && (negb (y mod 100 =? 0) || (y mod 400 =? 0)).

Definition days_before_year (y : Z) : Z :=
  let p := y - 1 in p * 365 + p / 4 - p / 100 + p / 400.

Definition days_before_month (y m : Z) : Z :=
  nth (Z.to_nat m) [0; 0; 31; 59; 90; 120; 151; 181; 212; 243; 273; 304; 334] 0
  + (if (2 <? m) && is_leap y then 1 else 0).

(** [d.toordinal()]: the proleptic Gregorian day number. *)
Definition toordinal (d : datetime) : Z :=
  days_before_year (year d) + days_before_month (year d) (month d) + day d.

Definition seconds_of_day (d : datetime) : Z :=
  second d + minute d * 60 + hour d * 3600.

(** A [timedelta] is kept as its exact number of microseconds. *)
Definition timedelta : Type := Z.

(** [a - b] on two [datetime] objects. *)
Definition sub (a b : datetime) : timedelta :=
  ((toordinal a - toordinal b) * 86400
   + (seconds_of_day a - seconds_of_day b)) * 1000000
  + (microsecond a - microsecond b).

(** [int(td.total_seconds())].  [total_seconds] is the correctly rounded
    double nearest to [td / 10^6] and [int] truncates it toward zero.  The
    fractional part of [td / 10^6] is a multiple of [10^-6], so as long as
    the magnitude stays below [2^33] seconds (272 years; the script
    compares instants of one run) rounding cannot reach the next integer
    and the result is the truncated quotient. *)
Definition int_total_seconds (td : timedelta) : Z := Z.quot td 1000000.

(** [d.strftime("%H:%M")], [d.strftime("%H:%M:%S")] and
    [d.strftime("%Y-%m-%d %H:%M:%S")]. *)
Definition strftime_HM (d : datetime) : string :=
  Py.zfill 2 (hour d) ++ ":" ++ Py.zfill 2 (minute d).

Definition strftime_HMS (d : datetime) : string :=
  strftime_HM d ++ ":" ++ Py.zfill 2 (second d).

Definition strftime_Ymd_HMS (d : datetime) : string :=
  Py.zfill 4 (year d) ++ "-" ++ Py.zfill 2 (month d) ++ "-"
  ++ Py.zfill 2 (day d) ++ " " ++ strftime_HMS d.

Definition digit_of (c : ascii) : option Z :=
  let n := Z.of_N (N_of_ascii c) in
  if (48 <=? n) && (n <=? 57) then Some (n - 48) else None.

(** One numeric field of [strptime]: two digits when the second character
    is a digit, one digit otherwise; [None] without a leading digit. *)
Definition parse_field (s : string) : option (Z * string) :=
  match s with
  | String c1 r1 =>
      match digit_of c1 with
      | None => None
      | Some d1 =>
          match r1 with
          | String c2 r2 =>
              match digit_of c2 with
              | Some d2 => Some (10 * d1 + d2, r2)
              | None => Some (d1, r1)
              end
          | EmptyString => Some (d1, r1)
          end
      end
  | EmptyString => None
  end.

(** [datetime.strptime(s, "%H:%M")] on a text of ASCII characters: hour
    0..23, a colon, minute 0..59 and nothing else; the date defaults to
    1900-01-01.  [None] stands for the [ValueError] raised on any other
    ASCII text.  Python also reads decimal digits of other scripts; such
    texts are outside this model (it answers [None] for them), so a
    statement may rely on [None] only for a text that [Py.ascii_only]
    accepts, while an answer [Some d] is always Python's. *)
Definition strptime_HM (s : string) : option datetime :=
  match parse_field s with
  | Some (h, String ":" r) =>
      match parse_field r with
      | Some (m, EmptyString) =>
          if (h <=? 23) && (m <=? 59)
          then Some (mk_datetime 1900 1 1 h m 0 0)
          else None
      | _ => None
      end
  | _ => None
  end.

(** [d.replace(year=y, month=m, day=dd)]. *)
Definition replace_date (d : datetime) (y m dd : Z) : datetime :=
  mk_datetime y m dd (hour d) (minute d) (second d) (microsecond d).

End Datetime.

Import Datetime.

(* ===================================================================== *)
(** ** Interpreter state and the monad of script fragments *)
(* ===================================================================== *)

Module Interp.

(** What one call of [input()] meets on standard input: a line (only its
    arrival matters, the script ignores the text), together with the
    wall-clock reading at that moment, or a keyboard interrupt.  An
    exhausted input raises [EOFError]. *)
Inductive event : Type :=
| Enter (now : datetime)
| CtrlC.

Inductive exn : Type := KeyboardInterrupt | EOFError | ValueError.

Inductive result (A : Type) : Type :=
| Ok (a : A)
| Raise (e : exn).
Arguments Ok {A} a.
Arguments Raise {A} e.

(** A CSV file is the list of rows passed to [writerow], each cell already
    converted with [str]. *)
Abbreviation csv := (list (list string)).

Record state : Type := mk_state {
  actual_times : gmap Z datetime;   (* the global dictionary *)
  stdout : list string;             (* chunks written so far *)
  stdin : list event;
  clock : datetime;                 (* what [datetime.now()] returns *)
  files : gmap string csv;
  isatty : bool                     (* is stdout a terminal; never queried *)
}.

Definition py (A : Type) : Type := state -> result A * state.

#[global] Instance py_ret : MRet py := fun A a st => (Ok a, st).

#[global] Instance py_bind : MBind py := fun A B f m st =>
  match m st with
  | (Ok a, st') => f a st'
  | (Raise e, st') => (Raise e, st')
  end.

Definition raise {A : Type} (e : exn) : py A := fun st => (Raise e, st).

Definition write (s : string) : py unit := fun st =>
  (Ok tt, mk_state (actual_times st) (stdout st ++ [s])%list (stdin st)
                   (clock st) (files st) (isatty st)).

(** [print(s)]. *)
Definition print (s : string) : py unit := write (s ++ Py.LF).

(** [input(prompt)]: the prompt goes to stdout, then the call blocks until
    the next event. *)
Definition wait_line : py unit := fun st =>
  match stdin st with
  | [] => (Raise EOFError, st)
  | CtrlC :: evs =>
      (Raise KeyboardInterrupt,
       mk_state (actual_times st) (stdout st) evs
                (clock st) (files st) (isatty st))
  | Enter now :: evs =>
      (Ok tt,
       mk_state (actual_times st) (stdout st) evs
                now (files st) (isatty st))
  end.

Definition input (prompt : string) : py unit := write prompt ;; wait_line.

(** [datetime.now()]. *)
Definition datetime_now : py datetime := fun st => (Ok (clock st), st).

(** [actual_times.get(seq)] and [actual_times[seq] = now]. *)
Definition dict_get (seq : Z) : py (option datetime) := fun st =>
  (Ok (actual_times st !! seq), st).

Definition dict_set (seq : Z) (now : datetime) : py unit := fun st =>
  (Ok tt, mk_state (<[seq := now]> (actual_times st)) (stdout st) (stdin st)
                   (clock st) (files st) (isatty st)).

(** [open(name, "w")] creates or truncates; [writer.writerow(row)]
    appends.  The file system is taken to be writable. *)
Definition open_w (name : string) : py unit := fun st =>
  (Ok tt, mk_state (actual_times st) (stdout st) (stdin st)
                   (clock st) (<[name := []]> (files st)) (isatty st)).

Definition writerow (name : string) (row : list string) : py unit := fun st =>
  (Ok tt, mk_state (actual_times st) (stdout st) (stdin st) (clock st)
                   (alter (fun rows : csv => (rows ++ [row])%list) name (files st))
                   (isatty st)).

(** [for x in l: body x]. *)
Fixpoint for_each {A : Type} (l : list A) (body : A -> py unit) : py unit :=
  match l with
  | [] => mret tt
  | x :: l' => body x ;; for_each l' body
  end.

End Interp.

Import Interp.

(* ===================================================================== *)
(** ** The script *)
(* ===================================================================== *)

Module Logger.

(** ANSI colour codes. *)
Definition RED : string := Py.ESC ++ "[91m".
Definition GREEN : string := Py.ESC ++ "[92m".
Definition YELLOW : string := Py.ESC ++ "[93m".
Definition RESET : string := Py.ESC ++ "[0m".

(** An entry of the schedule as the literal gives it: sequence number,
    scheduled time [HH:MM] and stop name. *)
Definition entry : Type := Z * string * string.

Definition bus_stops : list entry :=
  [ (1, "09:43", "Grand-Lancy, Stade de Genève");
    (2, "09:45", "Lancy-Pont-Rouge, gare/Etoile");
    (3, "09:47", "Lancy-Pont-Rouge, gare");
    (4, "09:49", "Petit-Lancy, place");
    (5, "09:51", "Les Esserts");
    (6, "09:52", "Onex, Bandol");
    (7, "09:54", "Salle communale");
    (8, "09:55", "Conégnon, La Dode");
    (9, "09:56", "croisée");
    (10, "09:58", "Bernex, P+R") ].

(** A schedule entry once the start-up loop has added ["target_time"]. *)
Record Stop : Type := mk_stop {
  sequence : Z;
  time : string;
  stop : string;
  target_time : datetime
}.

(** The start-up loop: parse each [HH:MM] and move it to today's date. *)
Fixpoint set_target_times (today : datetime) (raw : list entry)
  : py (list Stop) :=
  match raw with
  | [] => mret []
  | (seq, hh_mm, name) :: rest =>
      match strptime_HM hh_mm with
      | None => raise ValueError
      | Some d =>
          let t := replace_date d (year today) (month today) (day today) in
          ss ← set_target_times today rest;
          mret (mk_stop seq hh_mm name t :: ss)
      end
  end.

(** [actual_times = {}]. *)
Definition dict_new : py unit := fun st =>
  (Ok tt, mk_state ∅ (stdout st) (stdin st) (clock st) (files st)
                   (isatty st)).

Definition format_deviation (actual_dt target_dt : datetime)
  : string * Z * Z * Z :=
  let total_seconds := int_total_seconds (sub actual_dt target_dt) in
  let sign := if 0 <=? total_seconds then "+" else "-" in
  let sec_abs := Z.abs total_seconds in
  let minutes := sec_abs / 60 in
  let seconds := sec_abs mod 60 in
  (sign, minutes, seconds, total_seconds).

Definition color_for_deviation (total_seconds : Z) : string :=
  if 0 <? total_seconds then RED        (* late *)
  else if total_seconds <? 0 then GREEN (* early *)
  else YELLOW.                          (* on time *)

(** The cells of one line of the tail view. *)
Record view_row : Type := mk_view_row {
  v_seq : Z;
  v_name : string;
  v_target : string;
  v_actual : string;
  v_deviation : string;
  v_travel : string
}.

(** One iteration of the loop of [print_tail_view], up to the [print]. *)
Definition tail_row (s : Stop) (actual_dt prev_actual : option datetime)
  : view_row :=
  let seq := sequence s in
  let name := stop s in
  let target_str := strftime_HM (target_time s) in
  let '(actual_str, deviation_colored) :=
    match actual_dt with
    | Some a =>
        let '(sign, m, sec, total_sec) :=
          format_deviation a (target_time s) in
        let color := color_for_deviation total_sec in
        let deviation_str := sign ++ Py.str m ++ "m " ++ Py.str sec ++ "s" in
        (strftime_HMS a, color ++ deviation_str ++ RESET)
    | None => ("-", "-")
    end in
  let travel_str :=
    match actual_dt, prev_actual with
    | Some a, Some p =>
        let travel_sec := int_total_seconds (sub a p) in
        let tm := travel_sec / 60 in
        let ts := travel_sec mod 60 in
        Py.str tm ++ "m " ++ Py.str ts ++ "s"
    | _, _ => "-"
    end in
  mk_view_row seq name target_str actual_str deviation_colored travel_str.

Definition tail_line (r : view_row) : string :=
  Py.ljust 3 (Py.str (v_seq r)) ++ " " ++ Py.ljust 25 (v_name r) ++ " "
  ++ Py.ljust 6 (v_target r) ++ " " ++ Py.ljust 8 (v_actual r) ++ " "
  ++ Py.ljust 12 (v_deviation r) ++ " " ++ v_travel r.

(** [if actual_dt: prev_actual = actual_dt]. *)
Definition next_prev (actual_dt prev_actual : option datetime)
  : option datetime :=
  match actual_dt with
  | Some a => Some a
  | None => prev_actual
  end.

Fixpoint tail_loop (stops : list Stop) (prev_actual : option datetime)
  : py unit :=
  match stops with
  | [] => mret tt
  | s :: rest =>
      actual_dt ← dict_get (sequence s);
      print (tail_line (tail_row s actual_dt prev_actual)) ;;
      tail_loop rest (next_prev actual_dt prev_actual)
  end.

Definition tail_header : string :=
  Py.ljust 3 "Seq" ++ " " ++ Py.ljust 25 "Stop" ++ " "
  ++ Py.ljust 6 "Target" ++ " " ++ Py.ljust 8 "Actual" ++ " "
  ++ Py.ljust 12 "Deviation" ++ " " ++ "From prev".

Definition print_tail_view (sched : list Stop) : py unit :=
  print (Py.LF ++ "--- Bus Trip Status ---") ;;
  print tail_header ;;
  tail_loop sched None ;;
  print ("-----------------------" ++ Py.LF).

Definition output_csv : string := "bus_trip_log.csv".

(** The body of the main loop: the "log arrival" step for one stop. *)
Definition log_arrival (sched : list Stop) (s : Stop) : py unit :=
  let seq := sequence s in
  let prompt :=
    "Press ENTER at stop " ++ Py.str seq ++ " - " ++ stop s
    ++ " (scheduled " ++ time s ++ ") -> " in
  input prompt ;;
  now ← datetime_now;
  dict_set seq now ;;
  print ("Logged: " ++ stop s ++ " at " ++ strftime_Ymd_HMS now) ;;
  print_tail_view sched.

Definition main_loop (sched todo : list Stop) : py unit :=
  for_each todo (log_arrival sched).

(** The values of one CSV row; [total_sec] is an [int] or the empty
    string. *)
Record export_row : Type := mk_export_row {
  e_seq : Z;
  e_name : string;
  e_target : string;
  e_actual : string;
  e_deviation : string;
  e_total_sec : option Z;
  e_travel : string
}.

(** One iteration of the export loop, up to the [writerow]. *)
Definition csv_row (s : Stop) (actual_dt prev_actual : option datetime)
  : export_row :=
  let seq := sequence s in
  let name := stop s in
  let target_str := strftime_HM (target_time s) in
  let '(actual_str, deviation_str, total_sec) :=
    match actual_dt with
    | Some a =>
        let '(sign, m, sec, total_sec) :=
          format_deviation a (target_time s) in
        (strftime_Ymd_HMS a,
         sign ++ Py.str m ++ "m " ++ Py.str sec ++ "s",
         Some total_sec)
    | None => ("", "", None)
    end in
  let travel_str :=
    match actual_dt, prev_actual with
    | Some a, Some p =>
        let travel_sec := int_total_seconds (sub a p) in
        Py.str (travel_sec / 60) ++ "m " ++ Py.str (travel_sec mod 60) ++ "s"
    | _, _ => ""
    end in
  mk_export_row seq name target_str actual_str deviation_str total_sec
                travel_str.

(** The list handed to [writerow], cell by cell through [str]. *)
Definition csv_cells (r : export_row) : list string :=
  [ Py.str (e_seq r); e_name r; e_target r; e_actual r; e_deviation r;
    from_option Py.str "" (e_total_sec r); e_travel r ].

Definition csv_header : list string :=
  [ "Sequence"; "Stop"; "Target Time"; "Actual Time"; "Deviation (+/-)";
    "Deviation Secs"; "Travel From Prev" ].

Fixpoint export_loop (stops : list Stop) (prev_actual : option datetime)
  : py unit :=
  match stops with
  | [] => mret tt
  | s :: rest =>
      actual_dt ← dict_get (sequence s);
      writerow output_csv (csv_cells (csv_row s actual_dt prev_actual)) ;;
      export_loop rest (next_prev actual_dt prev_actual)
  end.

Definition save_csv (sched : list Stop) : py unit :=
  open_w output_csv ;;
  writerow output_csv csv_header ;;
  export_loop sched None.

(** The whole script, over an arbitrary schedule literal. *)
Definition script_with (raw : list entry) : py unit :=
  today ← datetime_now;
  sched ← set_target_times today raw;
  dict_new ;;
  print "Manual bus stop logger (with scheduled times)" ;;
  print "Press ENTER when the bus reaches each stop to log actual time." ;;
  print ("Script will show deviations vs scheduled times and travel time from previous stop." ++ Py.LF) ;;
  main_loop sched sched ;;
  save_csv sched ;;
  print (Py.LF ++ "All logged data saved to '" ++ output_csv ++ "'.").

Definition script : py unit := script_with bus_stops.

End Logger.

Import Logger.

(* ===================================================================== *)
(** ** Specification-side definitions *)
(* ===================================================================== *)

(** Throughout, the arrival record is the dictionary [actual_times], a
    [gmap Z datetime]. *)

Definition with_stdout (st : state) (out : list string) : state :=
  mk_state (actual_times st) out (stdin st) (clock st) (files st) (isatty st).

Definition with_files (st : state) (fs : gmap string csv) : state :=
  mk_state (actual_times st) (stdout st) (stdin st) (clock st) fs (isatty st).

(** The rows the loop of [print_tail_view] goes through, without the
    printing: the same recursion as [tail_loop], over a given record. *)
Fixpoint view_rows (rec : gmap Z datetime) (stops : list Stop)
  (prev_actual : option datetime) : list view_row :=
  match stops with
  | [] => []
  | s :: rest =>
      let actual_dt := rec !! sequence s in
      tail_row s actual_dt prev_actual
      :: view_rows rec rest (next_prev actual_dt prev_actual)
  end.

(** The rows the export loop goes through, without the writing. *)
Fixpoint export_rows (rec : gmap Z datetime) (stops : list Stop)
  (prev_actual : option datetime) : list export_row :=
  match stops with
  | [] => []
  | s :: rest =>
      let actual_dt := rec !! sequence s in
      csv_row s actual_dt prev_actual
      :: export_rows rec rest (next_prev actual_dt prev_actual)
  end.

(** The lines one call of [print_tail_view] writes. *)
Definition printed (s : string) : string := s ++ Py.LF.

Definition status_banner : string := Py.LF ++ "--- Bus Trip Status ---".
Definition status_footer : string := "-----------------------" ++ Py.LF.

Definition view_lines (rec : gmap Z datetime) (sched : list Stop)
  : list string :=
  ([ printed status_banner; printed tail_header ]
   ++ map (fun r => printed (tail_line r)) (view_rows rec sched None)
   ++ [ printed status_footer ])%list.

(** [computeTravelSegment] in the words of the specification: the arrival at
    the nearest stop strictly before position [i] that has a recorded
    arrival, searching backwards from [i - 1]. *)
Fixpoint nearest_visited (rec : gmap Z datetime) (sched : list Stop) (i : nat)
  : option datetime :=
  match i with
  | O => None
  | S j =>
      match sched !! j ≫= (fun s => rec !! sequence s) with
      | Some p => Some p
      | None => nearest_visited rec sched j
      end
  end.

(** The text of a travel segment of [t] whole seconds. *)
Definition travel_text (t : Z) : string :=
  Py.str (t / 60) ++ "m " ++ Py.str (t mod 60) ++ "s".

(** The text of a deviation. *)
Definition deviation_text (sign : string) (m sec : Z) : string :=
  sign ++ Py.str m ++ "m " ++ Py.str sec ++ "s".

(** The categorical labels of [computeDeviation], and the marker the
    comments of [color_for_deviation] attach to each. *)
Inductive category : Type := late | early | on_time.

Definition marker (c : category) : string :=
  match c with
  | late => RED
  | early => GREEN
  | on_time => YELLOW
  end.

(** The sequence numbers of a schedule. *)
Definition sequences (sched : list Stop) : list Z := map sequence sched.

(** The value of the loop variable [prev_actual] on entry to iteration
    [i], when the loop over [stops] starts with [prev]. *)
Fixpoint prev_at (rec : gmap Z datetime) (stops : list Stop)
  (prev : option datetime) (i : nat) : option datetime :=
  match i, stops with
  | S j, s :: rest => prev_at rec rest (next_prev (rec !! sequence s) prev) j
  | _, _ => prev
  end.

(** The components of the result of [format_deviation]. *)
Definition dev_sign (a t : datetime) : string :=
  (format_deviation a t).1.1.1.
Definition dev_minutes (a t : datetime) : Z :=
  (format_deviation a t).1.1.2.
Definition dev_seconds (a t : datetime) : Z :=
  (format_deviation a t).1.2.
Definition dev_total (a t : datetime) : Z :=
  (format_deviation a t).2.

(** The text both loops build from the result of [format_deviation]. *)
Definition dev_text (a t : datetime) : string :=
  deviation_text (dev_sign a t) (dev_minutes a t) (dev_seconds a t).

(** Does a text carry an escape byte, i.e. a terminal marker code? *)
Fixpoint has_esc (s : string) : bool :=
  match s with
  | EmptyString => false
  | String c r => Ascii.eqb c "027" || has_esc r
  end.

(** The same state seen with another answer to "is stdout a terminal". *)
Definition with_isatty (st : state) (b : bool) : state :=
  mk_state (actual_times st) (stdout st) (stdin st) (clock st) (files st) b.

(** The prompt and the confirmation line of one step of the main loop. *)
Definition prompt_of (s : Stop) : string :=
  "Press ENTER at stop " ++ Py.str (sequence s) ++ " - " ++ stop s
  ++ " (scheduled " ++ time s ++ ") -> ".

Definition logged_line (s : Stop) (now : datetime) : string :=
  printed ("Logged: " ++ stop s ++ " at " ++ strftime_Ymd_HMS now).

(** One iteration of the start-up loop as a function: the entry with its
    target time on today's date, or nothing when the time does not parse. *)
Definition anchor (today : datetime) (e : entry) : option Stop :=
  d ← strptime_HM e.1.2;
  Some (mk_stop e.1.1 e.1.2 e.2
          (replace_date d (year today) (month today) (day today))).

(** The record once the main loop has logged the stops of [todo] at the
    moments [times], one dictionary assignment after the other. *)
Definition record_after (rec : gmap Z datetime) (todo : list Stop)
  (times : list datetime) : gmap Z datetime :=
  foldl (fun m p => <[sequence p.1 := p.2]> m) rec (zip todo times).

(* ===================================================================== *)
(** ** Running the loops *)
(* ===================================================================== *)

Section Runs.

Lemma with_stdout_twice st o1 o2 :
  with_stdout (with_stdout st o1) o2 = with_stdout st o2.
Proof. reflexivity. Qed.

Lemma with_stdout_same st : with_stdout st (stdout st) = st.
Proof. by destruct st. Qed.

Lemma with_files_same st : with_files st (files st) = st.
Proof. by destruct st. Qed.

Lemma print_run s st :
  print s st = (Ok tt, with_stdout st (stdout st ++ [printed s])%list).
Proof. reflexivity. Qed.

Lemma tail_loop_run stops : forall prev st,
  tail_loop stops prev st
  = (Ok tt,
     with_stdout st
       (stdout st ++ map (fun r => printed (tail_line r))
                         (view_rows (actual_times st) stops prev))%list).
Proof.
  induction stops as [|s rest IH]; intros prev st; simpl.
  - rewrite app_nil_r, with_stdout_same. reflexivity.
  - unfold mbind, py_bind, dict_get. rewrite print_run, IH. simpl.
    unfold with_stdout; simpl. by rewrite <- app_assoc.
Qed.

Lemma print_tail_view_run sched st :
  print_tail_view sched st
  = (Ok tt,
     with_stdout st (stdout st ++ view_lines (actual_times st) sched)%list).
Proof.
  unfold print_tail_view, mbind, py_bind.
  rewrite !print_run, tail_loop_run, print_run.
  unfold with_stdout, view_lines; simpl.
  by rewrite <- !app_assoc.
Qed.

Lemma export_loop_run stops : forall prev st rows0,
  files st !! output_csv = Some rows0 ->
  export_loop stops prev st
  = (Ok tt,
     with_files st
       (<[output_csv :=
            (rows0 ++ map csv_cells
                          (export_rows (actual_times st) stops prev))%list]>
          (files st))).
Proof.
  induction stops as [|s rest IH]; intros prev st rows0 Hf; simpl.
  - rewrite app_nil_r, insert_id by done. by rewrite with_files_same.
  - unfold mbind, py_bind, dict_get, writerow.
    set (row := csv_cells (csv_row s (actual_times st !! sequence s) prev)).
    rewrite (IH _ _ (rows0 ++ [row])%list).
    2:{ simpl files. rewrite lookup_alter_eq, Hf. reflexivity. }
    unfold with_files; simpl. f_equal. f_equal.
    rewrite <- app_assoc. simpl.
    apply map_eq; intros k. destruct (decide (k = output_csv)) as [->|Hne].
    + by rewrite !lookup_insert_eq.
    + rewrite !lookup_insert_ne by done. by rewrite lookup_alter_ne.
Qed.

Lemma save_csv_run sched st :
  save_csv sched st
  = (Ok tt,
     with_files st
       (<[output_csv :=
            csv_header
            :: map csv_cells (export_rows (actual_times st) sched None)]>
          (files st))).
Proof.
  unfold save_csv, mbind, py_bind, open_w, writerow. simpl.
  rewrite (export_loop_run _ _ _ [csv_header]).
  2:{ simpl files. rewrite lookup_alter_eq, lookup_insert_eq. reflexivity. }
  unfold with_files; simpl. f_equal. f_equal.
  apply map_eq; intros k. destruct (decide (k = output_csv)) as [->|Hne].
  - by rewrite !lookup_insert_eq.
  - rewrite !lookup_insert_ne by done.
    rewrite lookup_alter_ne by done. by rewrite lookup_insert_ne.
Qed.

End Runs.

(* ===================================================================== *)
(** ** The scan for the previous visited stop *)
(* ===================================================================== *)

Section PrevActual.

Variable rec : gmap Z datetime.

Lemma view_rows_lookup stops : forall prev i s,
  stops !! i = Some s ->
  view_rows rec stops prev !! i
  = Some (tail_row s (rec !! sequence s) (prev_at rec stops prev i)).
Proof.
  induction stops as [|s0 rest IH]; intros prev [|i] s Hs;
    simplify_eq/=; [done|]. by apply IH.
Qed.

Lemma export_rows_lookup stops : forall prev i s,
  stops !! i = Some s ->
  export_rows rec stops prev !! i
  = Some (csv_row s (rec !! sequence s) (prev_at rec stops prev i)).
Proof.
  induction stops as [|s0 rest IH]; intros prev [|i] s Hs;
    simplify_eq/=; [done|]. by apply IH.
Qed.

Lemma view_rows_length stops : forall prev,
  length (view_rows rec stops prev) = length stops.
Proof. induction stops; intros; simpl; auto. Qed.

Lemma export_rows_length stops : forall prev,
  length (export_rows rec stops prev) = length stops.
Proof. induction stops; intros; simpl; auto. Qed.

Lemma nearest_visited_nil i : nearest_visited rec [] i = None.
Proof. induction i; simpl; auto. Qed.

Lemma nearest_visited_cons s rest i :
  nearest_visited rec (s :: rest) (S i)
  = match nearest_visited rec rest i with
    | Some p => Some p
    | None => rec !! sequence s
    end.
Proof.
  induction i as [|k IH].
  - simpl. by destruct (rec !! sequence s).
  - change (nearest_visited rec (s :: rest) (S (S k)))
      with (match rest !! k ≫= (fun s => rec !! sequence s) with
            | Some p => Some p
            | None => nearest_visited rec (s :: rest) (S k)
            end).
    rewrite IH. simpl.
    by destruct (rest !! k ≫= (fun s => rec !! sequence s)).
Qed.

(** The loop variable holds exactly what the specification's backward
    search finds. *)
Lemma prev_at_nearest stops : forall prev i,
  prev_at rec stops prev i
  = match nearest_visited rec stops i with
    | Some p => Some p
    | None => prev
    end.
Proof.
  induction stops as [|s rest IH]; intros prev [|i].
  - reflexivity.
  - by rewrite nearest_visited_nil.
  - reflexivity.
  - simpl prev_at. rewrite IH, nearest_visited_cons.
    destruct (nearest_visited rec rest i); [done|].
    unfold next_prev. by destruct (rec !! sequence s).
Qed.

Lemma nearest_visited_None sched i :
  (forall j sj, (j < i)%nat -> sched !! j = Some sj ->
                rec !! sequence sj = None) ->
  nearest_visited rec sched i = None.
Proof.
  induction i as [|i IH]; intros H; simpl; [done|].
  destruct (sched !! i) as [si|] eqn:Hi; simpl.
  - rewrite (H i si) by (done || lia). apply IH.
    intros j sj Hj. apply H. lia.
  - apply IH. intros j sj Hj. apply H. lia.
Qed.

Lemma nearest_visited_Some sched i j sj p :
  (j < i)%nat -> sched !! j = Some sj -> rec !! sequence sj = Some p ->
  (forall k sk, (j < k < i)%nat -> sched !! k = Some sk ->
                rec !! sequence sk = None) ->
  nearest_visited rec sched i = Some p.
Proof.
  induction i as [|i IH]; intros Hj Hsj Hp Hgap; [lia|].
  simpl. destruct (decide (j = i)) as [->|Hne].
  - by rewrite Hsj; simpl; rewrite Hp.
  - destruct (sched !! i) as [si|] eqn:Hi; simpl.
    + rewrite (Hgap i si) by (done || lia).
      apply IH; [lia|done|done|]. intros k sk Hk. apply Hgap. lia.
    + apply IH; [lia|done|done|]. intros k sk Hk. apply Hgap. lia.
Qed.

End PrevActual.

(* ===================================================================== *)
(** ** Deviation: sign, truncation and decomposition *)
(* ===================================================================== *)

Section Deviation.

Lemma int_total_seconds_trunc (td : timedelta) :
  Z.abs (int_total_seconds td) * 1000000 <= Z.abs td
    < (Z.abs (int_total_seconds td) + 1) * 1000000
  /\ (0 <= td -> 0 <= int_total_seconds td)
  /\ (td <= 0 -> int_total_seconds td <= 0).
Proof.
  unfold int_total_seconds. Z.to_euclidean_division_equations. lia.
Qed.

Lemma color_markers_distinct :
  RED <> GREEN /\ RED <> YELLOW /\ GREEN <> YELLOW.
Proof. repeat split; discriminate. Qed.

End Deviation.

(** C1, counterexample.  An arrival half a second before the scheduled time:
    the difference [actual - scheduled] is negative, yet the sign returned is
    ["+"], because the sign is read off the delta after it has been truncated
    to whole seconds. *)
Lemma format_deviation_subsecond_early :
  let actual_dt := mk_datetime 2024 5 17 9 42 59 500000 in
  let target_dt := mk_datetime 2024 5 17 9 43 0 0 in
  sub actual_dt target_dt < 0
  /\ format_deviation actual_dt target_dt = ("+", 0, 0, 0).
Proof. split; reflexivity. Qed.

(** C1, as amended.  [format_deviation] truncates the raw delta toward zero
    to whole seconds; the sign it returns is that of the truncated delta:
    ["-"] exactly when the truncated delta is negative, ["+"] otherwise.  It
    therefore agrees with the sign of [actual - scheduled] whenever the
    arrival is not early or is early by at least one whole second.  Minutes
    and seconds decompose the absolute truncated delta:
    [minutes * 60 + seconds = abs total_seconds] with [0 <= seconds < 60]. *)
Theorem format_deviation_sign_and_split (actual_dt target_dt : datetime) :
  let delta := sub actual_dt target_dt in
  let '(sign, minutes, seconds, total_seconds) :=
    format_deviation actual_dt target_dt in
  (Z.abs total_seconds * 1000000 <= Z.abs delta
     < (Z.abs total_seconds + 1) * 1000000)
  /\ (0 <= delta -> 0 <= total_seconds)
  /\ (delta <= 0 -> total_seconds <= 0)
  /\ (sign = "-" <-> total_seconds < 0)
  /\ (sign = "+" <-> 0 <= total_seconds)
  /\ (0 <= delta -> sign = "+")
  /\ (delta <= -1000000 -> sign = "-")
  /\ minutes * 60 + seconds = Z.abs total_seconds
  /\ 0 <= seconds < 60
  /\ 0 <= minutes.
Proof.
  unfold format_deviation. cbv zeta.
  set (delta := sub actual_dt target_dt).
  destruct (int_total_seconds_trunc delta) as (Hmag & Hpos & Hneg).
  set (total := int_total_seconds delta) in *.
  assert (Hsplit : Z.abs total / 60 * 60 + Z.abs total mod 60 = Z.abs total).
  { pose proof (Z.div_mod (Z.abs total) 60). lia. }
  pose proof (Z.mod_pos_bound (Z.abs total) 60 ltac:(lia)) as Hsec.
  pose proof (Z.div_pos (Z.abs total) 60 ltac:(lia) ltac:(lia)) as Hmin.
  destruct (Z.leb_spec 0 total) as [Hle|Hlt].
  - repeat split; try done; try lia.
  - repeat split; try done; try lia.
Qed.

(** A late arrival of 90.25 seconds: sign ["+"], one minute and thirty
    seconds. *)
Lemma format_deviation_sign_and_split_witness :
  let actual_dt := mk_datetime 2024 5 17 9 44 30 250000 in
  let target_dt := mk_datetime 2024 5 17 9 43 0 0 in
  format_deviation actual_dt target_dt = ("+", 1, 30, 90)
  /\ 1 * 60 + 30 = Z.abs 90.
Proof.
  intros actual_dt target_dt.
  pose proof (format_deviation_sign_and_split actual_dt target_dt) as H.
  split; [reflexivity|].
  change (format_deviation actual_dt target_dt) with ("+", 1, 30, 90) in H.
  cbv zeta beta iota in H. apply H.
Defined.

(* ===================================================================== *)
(** ** The cells of a row, case by case *)
(* ===================================================================== *)

Section Cells.

Lemma tail_row_visited s a prev :
  tail_row s (Some a) prev
  = mk_view_row (sequence s) (stop s) (strftime_HM (target_time s))
      (strftime_HMS a)
      (color_for_deviation (dev_total a (target_time s))
       ++ dev_text a (target_time s) ++ RESET)
      (match prev with
       | Some p => travel_text (int_total_seconds (sub a p))
       | None => "-"
       end).
Proof. by destruct prev. Qed.

Lemma tail_row_unvisited s prev :
  tail_row s None prev
  = mk_view_row (sequence s) (stop s) (strftime_HM (target_time s))
      "-" "-" "-".
Proof. reflexivity. Qed.

Lemma csv_row_visited s a prev :
  csv_row s (Some a) prev
  = mk_export_row (sequence s) (stop s) (strftime_HM (target_time s))
      (strftime_Ymd_HMS a)
      (dev_text a (target_time s))
      (Some (dev_total a (target_time s)))
      (match prev with
       | Some p => travel_text (int_total_seconds (sub a p))
       | None => ""
       end).
Proof. by destruct prev. Qed.

Lemma csv_row_unvisited s prev :
  csv_row s None prev
  = mk_export_row (sequence s) (stop s) (strftime_HM (target_time s))
      "" "" None "".
Proof. reflexivity. Qed.

Lemma dev_zero a t :
  sub a t = 0 -> dev_text a t = "+0m 0s" /\ dev_total a t = 0.
Proof.
  intros H. unfold dev_text, dev_sign, dev_minutes, dev_seconds, dev_total,
    format_deviation. rewrite H. split; reflexivity.
Qed.

Lemma color_for_deviation_cases total :
  (0 < total /\ color_for_deviation total = RED)
  \/ (total < 0 /\ color_for_deviation total = GREEN)
  \/ (total = 0 /\ color_for_deviation total = YELLOW).
Proof.
  unfold color_for_deviation.
  destruct (Z.ltb_spec 0 total); [auto|].
  destruct (Z.ltb_spec total 0); [auto|]. right; right. split; [lia|done].
Qed.

Lemma has_esc_app_l s1 s2 : has_esc s1 = true -> has_esc (s1 ++ s2) = true.
Proof.
  induction s1 as [|c r IH]; simpl; [discriminate|].
  destruct (Ascii.eqb c "027"); simpl; auto.
Qed.

Lemma has_esc_color total : has_esc (color_for_deviation total) = true.
Proof.
  destruct (color_for_deviation_cases total) as [[_ ->]|[[_ ->]|[_ ->]]];
    reflexivity.
Qed.

End Cells.

(** C3, counterexample.  A stop reached exactly at its scheduled time: the
    deviation text carries a plus sign, it is not ["0m 0s"]. *)
Lemma on_time_text_has_plus_sign :
  let t := mk_datetime 2024 5 17 9 43 0 0 in
  let s := mk_stop 1 "09:43" "A" t in
  sub t (target_time s) = 0
  /\ e_deviation (csv_row s (Some t) None) = "+0m 0s"
  /\ v_deviation (tail_row s (Some t) None) = YELLOW ++ "+0m 0s" ++ RESET
  /\ e_deviation (csv_row s (Some t) None) <> "0m 0s".
Proof. repeat split; discriminate. Qed.

(** C3, as amended.  For an arrival recorded exactly at the scheduled time
    the deviation text is ["+0m 0s"] (with the plus sign), in the export as
    it is and in the view inside the on-time marker, and the signed seconds
    are [0].  The label is decided by the delta in whole seconds: late
    exactly when it is positive, early exactly when it is negative, on time
    exactly when it is zero. *)
Theorem on_time_text_and_label (s : Stop) (a : datetime)
  (prev : option datetime) :
  sub a (target_time s) = 0 ->
  e_deviation (csv_row s (Some a) prev) = "+0m 0s"
  /\ e_total_sec (csv_row s (Some a) prev) = Some 0
  /\ v_deviation (tail_row s (Some a) prev)
     = marker on_time ++ "+0m 0s" ++ RESET
  /\ forall total_seconds : Z,
       (color_for_deviation total_seconds = marker late
          <-> 0 < total_seconds)
       /\ (color_for_deviation total_seconds = marker early
          <-> total_seconds < 0)
       /\ (color_for_deviation total_seconds = marker on_time
          <-> total_seconds = 0).
Proof.
  intros H. destruct (dev_zero _ _ H) as [Htext Htot].
  rewrite csv_row_visited, tail_row_visited. simpl.
  rewrite Htext, Htot. repeat split; try reflexivity.
  all: destruct (color_for_deviation_cases total_seconds)
         as [[? ->]|[[? ->]|[? ->]]]; simpl; try lia; try done.
Qed.

Lemma on_time_text_and_label_witness :
  let t := mk_datetime 2024 5 17 9 43 0 0 in
  let s := mk_stop 1 "09:43" "A" t in
  e_deviation (csv_row s (Some t) None) = "+0m 0s"
  /\ color_for_deviation 0 = marker on_time.
Proof.
  intros t s.
  destruct (on_time_text_and_label s t None eq_refl) as (H1 & _ & _ & H4).
  split; [exact H1|]. apply (H4 0). reflexivity.
Defined.

(* ===================================================================== *)
(** ** What is printed and what is exported for one stop *)
(* ===================================================================== *)

Section Rendered.

Lemma view_lines_lookup rec sched i r :
  view_rows rec sched None !! i = Some r ->
  view_lines rec sched !! (2 + i)%nat = Some (printed (tail_line r)).
Proof.
  intros Hr. unfold view_lines. simpl.
  change (map ?f ?l) with (f <$> l).
  rewrite lookup_app_l.
  - by rewrite list_lookup_fmap, Hr.
  - rewrite length_fmap. by eapply lookup_lt_Some.
Qed.

Lemma prev_at_start rec sched i :
  prev_at rec sched None i = nearest_visited rec sched i.
Proof. rewrite prev_at_nearest. by destruct (nearest_visited rec sched i). Qed.

(** The line [print_tail_view] writes for the stop at position [i]: the row
    of the loop body, entered with the nearest earlier recorded arrival as
    [prev_actual]. *)
Lemma print_tail_view_line sched st i s :
  sched !! i = Some s ->
  exists st',
    print_tail_view sched st = (Ok tt, st')
    /\ stdout st' !! (length (stdout st) + 2 + i)%nat
       = Some (printed
                 (tail_line
                    (tail_row s (actual_times st !! sequence s)
                       (nearest_visited (actual_times st) sched i)))).
Proof.
  intros Hs. eexists. split; [apply print_tail_view_run|]. simpl.
  rewrite lookup_app_r by lia.
  replace (length (stdout st) + 2 + i - length (stdout st))%nat
    with (2 + i)%nat by lia.
  apply view_lines_lookup.
  by rewrite (view_rows_lookup _ _ _ _ _ Hs), prev_at_start.
Qed.

(** The row [save_csv] writes for the stop at position [i], below the
    header. *)
Lemma save_csv_row sched st i s :
  sched !! i = Some s ->
  exists st' content,
    save_csv sched st = (Ok tt, st')
    /\ files st' !! output_csv = Some content
    /\ content !! 0%nat = Some csv_header
    /\ content !! (1 + i)%nat
       = Some (csv_cells
                 (csv_row s (actual_times st !! sequence s)
                    (nearest_visited (actual_times st) sched i))).
Proof.
  intros Hs. eexists _, _. split; [apply save_csv_run|]. simpl.
  split; [by rewrite lookup_insert_eq|]. split; [done|].
  change (map csv_cells (export_rows (actual_times st) sched None) !! i
          = Some (csv_cells
                    (csv_row s (actual_times st !! sequence s)
                       (nearest_visited (actual_times st) sched i)))).
  change (map ?f ?l) with (f <$> l).
  by rewrite list_lookup_fmap, (export_rows_lookup _ _ _ _ _ Hs),
    prev_at_start.
Qed.

End Rendered.

(* ===================================================================== *)
(** ** Travel segments *)
(* ===================================================================== *)

(** C2.  Take a stop at position [i] of the schedule with a recorded
    arrival [a].  The line [print_tail_view] writes for it and the row
    [save_csv] writes for it are those of the loop bodies entered with one
    and the same [prev_actual]; the travel segment is the last column of the
    line and the seventh cell of the row.  If no stop before position [i]
    has a recorded arrival, [prev_actual] is [None] and the travel segment
    is the placeholder (["-"] in the view, the empty text in the export),
    which is not the text of a zero duration.  If the stop at position
    [j < i] has a recorded arrival [p] and no stop strictly between [j] and
    [i] has one, [prev_actual] is [p] and the travel segment is the text of
    the whole seconds from [p] to [a]. *)
Theorem travel_segment_nearest_earlier_visited
  (sched : list Stop) (st : state) (i : nat) (s : Stop) (a : datetime) :
  sched !! i = Some s ->
  actual_times st !! sequence s = Some a ->
  exists prev_actual st_view st_csv content c_seq c_name c_target c_actual
         c_dev,
    let v := tail_row s (Some a) prev_actual in
    let e := csv_row s (Some a) prev_actual in
    print_tail_view sched st = (Ok tt, st_view)
    /\ stdout st_view !! (length (stdout st) + 2 + i)%nat
       = Some (printed (tail_line v))
    /\ tail_line v
       = c_seq ++ " " ++ c_name ++ " " ++ c_target ++ " " ++ c_actual
         ++ " " ++ c_dev ++ " " ++ v_travel v
    /\ save_csv sched st = (Ok tt, st_csv)
    /\ files st_csv !! output_csv = Some content
    /\ content !! (1 + i)%nat = Some (csv_cells e)
    /\ csv_cells e !! 6%nat = Some (e_travel e)
    /\ ((forall j sj, (j < i)%nat -> sched !! j = Some sj ->
                      actual_times st !! sequence sj = None) ->
        prev_actual = None
        /\ v_travel v = "-" /\ e_travel e = ""
        /\ v_travel v <> "0m 0s" /\ e_travel e <> "0m 0s")
    /\ (forall j sj p,
          (j < i)%nat -> sched !! j = Some sj ->
          actual_times st !! sequence sj = Some p ->
          (forall k sk, (j < k < i)%nat -> sched !! k = Some sk ->
                        actual_times st !! sequence sk = None) ->
          prev_actual = Some p
          /\ v_travel v = travel_text (int_total_seconds (sub a p))
          /\ e_travel e = travel_text (int_total_seconds (sub a p))).
Proof.
  intros Hs Ha.
  destruct (print_tail_view_line sched st i s Hs) as (st_view & Hview & Hline).
  destruct (save_csv_row sched st i s Hs)
    as (st_csv & content & Hcsv & Hfile & _ & Hrow).
  rewrite Ha in Hline, Hrow.
  exists (nearest_visited (actual_times st) sched i), st_view, st_csv, content.
  do 5 eexists. cbv zeta.
  split; [exact Hview|]. split; [exact Hline|]. split; [reflexivity|].
  split; [exact Hcsv|]. split; [exact Hfile|]. split; [exact Hrow|].
  split; [reflexivity|].
  rewrite tail_row_visited, csv_row_visited. cbn [v_travel e_travel].
  split.
  - intros Hnone. by rewrite (nearest_visited_None _ _ _ Hnone).
  - intros j sj p Hj Hsj Hp Hgap.
    by rewrite (nearest_visited_Some _ _ _ _ _ _ Hj Hsj Hp Hgap).
Qed.

(** Three stops, the middle one skipped: the travel segment of the third is
    counted from the first, on the printed line and in the exported row. *)
Lemma travel_segment_nearest_earlier_visited_witness :
  let day_at h m sec := mk_datetime 2024 5 17 h m sec 0 in
  let sched := [ mk_stop 1 "09:43" "A" (day_at 9 43 0);
                 mk_stop 2 "09:45" "B" (day_at 9 45 0);
                 mk_stop 3 "09:47" "C" (day_at 9 47 0) ] in
  let st := mk_state (<[3 := day_at 9 49 10]> (<[1 := day_at 9 44 30]> ∅))
              [] [] (day_at 9 49 10) ∅ true in
  stdout (print_tail_view sched st).2 !! 4%nat
  = Some (printed
            ("3   C                         09:47  09:49:10 "
             ++ RED ++ "+2m 10s" ++ RESET ++ " 4m 40s"))
  /\ files (save_csv sched st).2 !! output_csv
     = Some [ csv_header;
              [ "1"; "A"; "09:43"; "2024-05-17 09:44:30"; "+1m 30s"; "90";
                "" ];
              [ "2"; "B"; "09:45"; ""; ""; ""; "" ];
              [ "3"; "C"; "09:47"; "2024-05-17 09:49:10"; "+2m 10s"; "130";
                "4m 40s" ] ].
Proof.
  intros day_at sched st.
  destruct (travel_segment_nearest_earlier_visited sched st 2
              (mk_stop 3 "09:47" "C" (day_at 9 47 0)) (day_at 9 49 10)
              eq_refl eq_refl)
    as (prev & st_view & st_csv & content & c1 & c2 & c3 & c4 & c5
        & Hview & Hline & _ & Hcsv & Hfile & _ & _ & _ & Hnear).
  cbv zeta in Hline, Hnear.
  destruct (Hnear 0%nat (mk_stop 1 "09:43" "A" (day_at 9 43 0))
              (day_at 9 44 30)) as (-> & _); [lia|reflexivity|reflexivity| |].
  { intros k sk Hk Hsk. assert (k = 1%nat) as -> by lia.
    injection Hsk as <-. reflexivity. }
  split.
  - rewrite Hview. exact Hline.
  - rewrite Hcsv. cbn [snd]. rewrite Hfile.
    rewrite save_csv_run in Hcsv. injection Hcsv as <-.
    cbn [files with_files] in Hfile. rewrite lookup_insert_eq in Hfile.
    injection Hfile as <-. reflexivity.
Defined.


(* ===================================================================== *)
(** ** The export *)
(* ===================================================================== *)

(** C5.  Whatever the arrival record holds, [save_csv] succeeds and leaves
    in the output file the header followed by exactly one row per stop of
    the schedule, in schedule order; the row of a stop without a recorded
    arrival has empty actual time, deviation text, deviation seconds and
    travel segment. *)
Theorem export_one_row_per_stop (sched : list Stop) (st : state) :
  exists st' rows,
    save_csv sched st = (Ok tt, st')
    /\ files st' !! output_csv = Some (csv_header :: map csv_cells rows)
    /\ rows = export_rows (actual_times st) sched None
    /\ length rows = length sched
    /\ forall i s,
         sched !! i = Some s ->
         exists r,
           rows !! i = Some r
           /\ e_seq r = sequence s /\ e_name r = stop s
           /\ e_target r = strftime_HM (target_time s)
           /\ (actual_times st !! sequence s = None ->
               e_actual r = "" /\ e_deviation r = ""
               /\ e_total_sec r = None /\ e_travel r = ""
               /\ csv_cells r
                  = [ Py.str (sequence s); stop s;
                      strftime_HM (target_time s); ""; ""; ""; "" ]).
Proof.
  eexists _, _. split; [apply save_csv_run|].
  split; [simpl; by rewrite lookup_insert_eq|].
  split; [reflexivity|].
  split; [apply export_rows_length|].
  intros i s Hs. eexists. split; [by apply export_rows_lookup|].
  destruct (actual_times st !! sequence s) as [a|] eqn:Ha.
  - rewrite csv_row_visited. simpl. repeat split; discriminate.
  - rewrite csv_row_unvisited. simpl. repeat split; reflexivity.
Qed.

(** Three stops of which only the first is logged: three data rows, the
    last two with empty cells. *)
Lemma export_one_row_per_stop_witness :
  let day_at h m sec := mk_datetime 2024 5 17 h m sec 0 in
  let sched := [ mk_stop 1 "09:43" "A" (day_at 9 43 0);
                 mk_stop 2 "09:45" "B" (day_at 9 45 0);
                 mk_stop 3 "09:47" "C" (day_at 9 47 0) ] in
  let st := mk_state (<[1 := day_at 9 44 30]> ∅) [] [] (day_at 9 50 0) ∅
                     false in
  exists rows,
    files (save_csv sched st).2 !! output_csv
    = Some (csv_header :: map csv_cells rows)
    /\ length rows = 3%nat
    /\ exists r, rows !! 2%nat = Some r
                 /\ csv_cells r = [ "3"; "C"; "09:47"; ""; ""; ""; "" ].
Proof.
  intros day_at sched st.
  destruct (export_one_row_per_stop sched st)
    as (st' & rows & Hrun & Hfile & _ & Hlen & Hrow).
  exists rows. rewrite Hrun. split; [exact Hfile|]. split; [exact Hlen|].
  destruct (Hrow 2%nat (mk_stop 3 "09:47" "C" (day_at 9 47 0)) eq_refl)
    as (r & Hr & _ & _ & _ & Hempty).
  exists r. split; [exact Hr|]. apply Hempty. reflexivity.
Defined.

(* ===================================================================== *)
(** ** View against export *)
(* ===================================================================== *)

(** C10, counterexample.  One stop, logged ninety seconds late.  The line of
    the tail view carries the deviation between a colour code and the reset
    code, the exported row carries the bare text and, in a cell of its own,
    the signed seconds: two differences that are neither the placeholder of
    an unvisited stop nor the format of the actual time. *)
Lemma view_deviation_cell_is_wrapped :
  let on_day h m sec := mk_datetime 2024 5 17 h m sec 0 in
  let sched := [ mk_stop 1 "09:43" "A" (on_day 9 43 0) ] in
  let st := mk_state (<[1 := on_day 9 44 30]> ∅) [] [] (on_day 9 44 30) ∅
                     true in
  stdout (print_tail_view sched st).2 !! 2%nat
  = Some (printed
            (tail_line
               (mk_view_row 1 "A" "09:43" "09:44:30"
                  (RED ++ "+1m 30s" ++ RESET) "-")))
  /\ files (save_csv sched st).2 !! output_csv
     = Some [ csv_header;
              [ "1"; "A"; "09:43"; "2024-05-17 09:44:30"; "+1m 30s"; "90";
                "" ] ]
  /\ RED ++ "+1m 30s" ++ RESET <> "+1m 30s".
Proof. vm_compute. repeat split. discriminate. Qed.

(** C10, as amended.  For every arrival record and every stop, the line
    [print_tail_view] writes and the row [save_csv] writes are those of the
    two loop bodies entered with the same recorded arrival and the same
    [prev_actual]; they carry the same sequence number, name and scheduled
    time.  For an unvisited stop the view shows ["-"] where the export has
    the empty text.  For a visited stop both build the same deviation text
    from the same result of [format_deviation] and the same travel text from
    the same whole seconds (or both the placeholder).  The differences are:
    the placeholder, the actual time (time of day in the view, full date
    and time in the export), the colour code and reset code the view puts
    around the deviation text, and the signed seconds, which only the
    export has. *)
Theorem view_and_export_agree
  (sched : list Stop) (st : state) (i : nat) (s : Stop) :
  sched !! i = Some s ->
  exists prev_actual st_view st_csv content,
    let actual_dt := actual_times st !! sequence s in
    let v := tail_row s actual_dt prev_actual in
    let e := csv_row s actual_dt prev_actual in
    print_tail_view sched st = (Ok tt, st_view)
    /\ stdout st_view !! (length (stdout st) + 2 + i)%nat
       = Some (printed (tail_line v))
    /\ tail_line v
       = Py.ljust 3 (Py.str (v_seq v)) ++ " " ++ Py.ljust 25 (v_name v)
         ++ " " ++ Py.ljust 6 (v_target v) ++ " " ++ Py.ljust 8 (v_actual v)
         ++ " " ++ Py.ljust 12 (v_deviation v) ++ " " ++ v_travel v
    /\ save_csv sched st = (Ok tt, st_csv)
    /\ files st_csv !! output_csv = Some content
    /\ content !! (1 + i)%nat = Some (csv_cells e)
    /\ csv_cells e
       = [ Py.str (e_seq e); e_name e; e_target e; e_actual e;
           e_deviation e; from_option Py.str "" (e_total_sec e);
           e_travel e ]
    /\ prev_actual = nearest_visited (actual_times st) sched i
    /\ v_seq v = e_seq e /\ v_name v = e_name e /\ v_target v = e_target e
    /\ match actual_dt with
       | None =>
           v_actual v = "-" /\ e_actual e = ""
           /\ v_deviation v = "-" /\ e_deviation e = ""
           /\ e_total_sec e = None
           /\ v_travel v = "-" /\ e_travel e = ""
       | Some a =>
           v_actual v = strftime_HMS a /\ e_actual e = strftime_Ymd_HMS a
           /\ (let '(sign, m, sec, total_sec) :=
                 format_deviation a (target_time s) in
               e_deviation e = deviation_text sign m sec
               /\ v_deviation v
                  = color_for_deviation total_sec ++ e_deviation e ++ RESET
               /\ e_total_sec e = Some total_sec)
           /\ exists travel_sec : option Z,
                travel_sec
                = (fun p => int_total_seconds (sub a p)) <$> prev_actual
                /\ v_travel v = from_option travel_text "-" travel_sec
                /\ e_travel e = from_option travel_text "" travel_sec
       end.
Proof.
  intros Hs.
  destruct (print_tail_view_line sched st i s Hs) as (st_view & Hview & Hline).
  destruct (save_csv_row sched st i s Hs)
    as (st_csv & content & Hcsv & Hfile & _ & Hrow).
  exists (nearest_visited (actual_times st) sched i), st_view, st_csv, content.
  cbv zeta.
  split; [exact Hview|]. split; [exact Hline|]. split; [reflexivity|].
  split; [exact Hcsv|]. split; [exact Hfile|]. split; [exact Hrow|].
  split; [reflexivity|]. split; [reflexivity|].
  destruct (actual_times st !! sequence s) as [a|].
  - rewrite tail_row_visited, csv_row_visited. simpl.
    repeat split.
    eexists. split; [reflexivity|].
    by destruct (nearest_visited (actual_times st) sched i).
  - rewrite tail_row_unvisited, csv_row_unvisited. simpl. repeat split.
Qed.

Lemma view_and_export_agree_witness :
  let day_at h m sec := mk_datetime 2024 5 17 h m sec 0 in
  let sched := [ mk_stop 1 "09:43" "A" (day_at 9 43 0);
                 mk_stop 2 "09:45" "B" (day_at 9 45 0) ] in
  let st := mk_state (<[2 := day_at 9 47 0]> (<[1 := day_at 9 44 30]> ∅))
              [] [] (day_at 9 47 0) ∅ true in
  exists st_view st_csv content,
    print_tail_view sched st = (Ok tt, st_view)
    /\ stdout st_view !! 3%nat
       = Some (printed
                 (tail_line
                    (mk_view_row 2 "B" "09:45" "09:47:00"
                       (RED ++ "+2m 0s" ++ RESET) "2m 30s")))
    /\ save_csv sched st = (Ok tt, st_csv)
    /\ files st_csv !! output_csv = Some content
    /\ content !! 2%nat
       = Some [ "2"; "B"; "09:45"; "2024-05-17 09:47:00"; "+2m 0s"; "120";
                "2m 30s" ].
Proof.
  intros day_at sched st.
  destruct (view_and_export_agree sched st 1
              (mk_stop 2 "09:45" "B" (day_at 9 45 0)) eq_refl)
    as (prev & st_view & st_csv & content & Hview & Hline & _ & Hcsv
        & Hfile & Hrow & _ & -> & _).
  exists st_view, st_csv, content.
  split; [exact Hview|]. split; [exact Hline|]. split; [exact Hcsv|].
  split; [exact Hfile|]. exact Hrow.
Defined.


(* ===================================================================== *)
(** ** The tail view as a function of the record *)
(* ===================================================================== *)

(** C6.  [print_tail_view] never fails, changes nothing of the state but the
    text written to standard output (in particular not the arrival record),
    and what it writes is determined by the schedule and the arrival record
    alone: two states with the same record get the same lines, and two calls
    in a row write the same lines twice. *)
Theorem print_tail_view_pure (sched : list Stop) (st1 st2 : state) :
  actual_times st1 = actual_times st2 ->
  exists lines,
    lines = view_lines (actual_times st1) sched
    /\ print_tail_view sched st1
       = (Ok tt, with_stdout st1 (stdout st1 ++ lines)%list)
    /\ print_tail_view sched st2
       = (Ok tt, with_stdout st2 (stdout st2 ++ lines)%list)
    /\ actual_times (print_tail_view sched st1).2 = actual_times st1
    /\ (print_tail_view sched ;; print_tail_view sched) st1
       = (Ok tt, with_stdout st1 (stdout st1 ++ lines ++ lines)%list).
Proof.
  intros Hrec. eexists. split; [reflexivity|].
  split; [apply print_tail_view_run|].
  split; [rewrite Hrec; apply print_tail_view_run|].
  split; [by rewrite print_tail_view_run|].
  unfold mbind, py_bind. rewrite print_tail_view_run.
  rewrite print_tail_view_run. simpl.
  unfold with_stdout; simpl. by rewrite <- app_assoc.
Qed.

Lemma print_tail_view_pure_witness :
  let day_at h m sec := mk_datetime 2024 5 17 h m sec 0 in
  let sched := [ mk_stop 1 "09:43" "A" (day_at 9 43 0);
                 mk_stop 2 "09:45" "B" (day_at 9 45 0) ] in
  let rec : gmap Z datetime := <[1 := day_at 9 44 30]> ∅ in
  let st1 := mk_state rec [] [] (day_at 9 44 30) ∅ true in
  let st2 := mk_state rec ["earlier output"] [CtrlC] (day_at 9 50 0) ∅
                      false in
  exists lines,
    stdout (print_tail_view sched st1).2 = lines
    /\ stdout (print_tail_view sched st2).2
       = ("earlier output" :: lines)%list.
Proof.
  intros day_at sched rec st1 st2.
  destruct (print_tail_view_pure sched st1 st2 eq_refl)
    as (lines & _ & H1 & H2 & _).
  exists lines. rewrite H1, H2. split; reflexivity.
Defined.

(* ===================================================================== *)
(** ** Colour markers *)
(* ===================================================================== *)


(** C9, counterexample.  Standard output is not a terminal, stop 1 has been
    logged: the deviation cell of its row, and with it the printed line,
    still carries the escape codes. *)
Lemma marker_codes_without_terminal :
  let on_day h m sec := mk_datetime 2024 5 17 h m sec 0 in
  let sched := [ mk_stop 1 "09:43" "A" (on_day 9 43 0) ] in
  let st := mk_state (<[1 := on_day 9 44 30]> ∅) [] [] (on_day 9 44 30) ∅
                     false in
  isatty st = false
  /\ stdout (print_tail_view sched st).2 !! 2%nat
     = Some (printed
               ("1   A                         09:43  09:44:30 "
                ++ RED ++ "+1m 30s" ++ RESET ++ " -"))
  /\ existsb has_esc (stdout (print_tail_view sched st).2) = true.
Proof. vm_compute. repeat split. Qed.

(** C9, as amended.  In the tail view the deviation of every visited stop is
    written between a colour code and the reset code, whether or not
    standard output is a terminal: the script never looks at it, and the
    lines written are the same in both cases.  The colour code tells late
    (red), early (green) and on time (yellow) apart. *)
Theorem deviation_marker_in_every_environment
  (sched : list Stop) (st : state) (i : nat) (s : Stop) (a : datetime) :
  sched !! i = Some s ->
  actual_times st !! sequence s = Some a ->
  exists r,
    view_rows (actual_times st) sched None !! i = Some r
    /\ (let '(sign, m, sec, total_sec) :=
          format_deviation a (target_time s) in
        v_deviation r
        = color_for_deviation total_sec ++ deviation_text sign m sec
          ++ RESET
        /\ (0 < total_sec -> color_for_deviation total_sec = RED)
        /\ (total_sec < 0 -> color_for_deviation total_sec = GREEN)
        /\ (total_sec = 0 -> color_for_deviation total_sec = YELLOW))
    /\ has_esc (v_deviation r) = true
    /\ (RED <> GREEN /\ RED <> YELLOW /\ GREEN <> YELLOW)
    /\ forall b : bool,
         exists out,
           print_tail_view sched (with_isatty st b) = (Ok tt, out)
           /\ stdout out = (stdout st ++ view_lines (actual_times st) sched)%list
           /\ view_lines (actual_times st) sched !! (2 + i)%nat
              = Some (printed (tail_line r)).
Proof.
  intros Hs Ha.
  pose proof (view_rows_lookup (actual_times st) sched None i s Hs) as Hr.
  rewrite Ha, tail_row_visited in Hr.
  eexists. split; [exact Hr|].
  split.
  { simpl. split; [reflexivity|].
    destruct (color_for_deviation_cases
                (int_total_seconds (sub a (target_time s))))
      as [[? ->]|[[? ->]|[? ->]]]; repeat split; intros; try lia; done. }
  split.
  { cbn [v_deviation]. apply has_esc_app_l, has_esc_color. }
  split; [apply color_markers_distinct|].
  intros b. eexists. split; [apply print_tail_view_run|].
  split; [reflexivity|]. by apply view_lines_lookup.
Qed.

Lemma deviation_marker_in_every_environment_witness :
  let on_day h m sec := mk_datetime 2024 5 17 h m sec 0 in
  let sched := [ mk_stop 1 "09:43" "A" (on_day 9 43 0) ] in
  let st := mk_state (<[1 := on_day 9 42 0]> ∅) [] [] (on_day 9 42 0) ∅
                     false in
  exists r,
    view_rows (actual_times st) sched None !! 0%nat = Some r
    /\ has_esc (v_deviation r) = true.
Proof.
  intros on_day sched st.
  destruct (deviation_marker_in_every_environment sched st 0
              (mk_stop 1 "09:43" "A" (on_day 9 43 0)) (on_day 9 42 0)
              eq_refl eq_refl) as (r & Hr & _ & Hesc & _).
  exists r. split; [exact Hr|exact Hesc].
Defined.

(* ===================================================================== *)
(** ** The main loop *)
(* ===================================================================== *)

Section MainLoop.

Variable sched : list Stop.

(** One step of the main loop, by what [input] meets. *)
Lemma log_arrival_run s st :
  log_arrival sched s st
  = match stdin st with
    | [] =>
        (Raise EOFError,
         with_stdout st (stdout st ++ [prompt_of s])%list)
    | CtrlC :: evs =>
        (Raise KeyboardInterrupt,
         mk_state (actual_times st) (stdout st ++ [prompt_of s])%list evs
                  (clock st) (files st) (isatty st))
    | Enter now :: evs =>
        let rec' := <[sequence s := now]> (actual_times st) in
        (Ok tt,
         mk_state rec'
           (stdout st ++ [prompt_of s] ++ [logged_line s now]
            ++ view_lines rec' sched)%list
           evs now (files st) (isatty st))
    end.
Proof.
  destruct st as [rec out inp clk fs tty].
  unfold log_arrival, input, mbind, py_bind, write, wait_line.
  cbn [stdin]. destruct inp as [|[now|] evs]; try reflexivity.
  unfold datetime_now, dict_set. cbv beta iota zeta.
  rewrite print_run. cbv beta iota zeta. rewrite print_tail_view_run.
  unfold with_stdout. simpl. by rewrite <- !app_assoc.
Qed.

(** A step either logs the arrival of its own stop at the time read from
    the clock, or raises and leaves the record as it was; it never touches
    the files. *)
Lemma log_arrival_cases s st r st' :
  log_arrival sched s st = (r, st') ->
  files st' = files st
  /\ ((r = Ok tt
       /\ actual_times st' = <[sequence s := clock st']> (actual_times st))
      \/ ((r = Raise EOFError \/ r = Raise KeyboardInterrupt)
          /\ actual_times st' = actual_times st)).
Proof.
  rewrite log_arrival_run.
  destruct (stdin st) as [|[now|] evs]; intros [= <- <-]; simpl; auto.
Qed.

Lemma main_loop_cons s todo st :
  main_loop sched (s :: todo) st
  = match log_arrival sched s st with
    | (Ok _, st') => main_loop sched todo st'
    | (Raise e, st') => (Raise e, st')
    end.
Proof. reflexivity. Qed.

Lemma main_loop_app done todo st :
  main_loop sched (done ++ todo) st
  = match main_loop sched done st with
    | (Ok _, st') => main_loop sched todo st'
    | (Raise e, st') => (Raise e, st')
    end.
Proof.
  revert st. induction done as [|s done IH]; intros st; [done|].
  rewrite <- app_comm_cons, !main_loop_cons.
  destruct (log_arrival sched s st) as [[[]|e] st']; [apply IH|done].
Qed.

(** Fewer arrivals than stops, then an interrupt or the end of input: the
    loop raises, and the files are as before. *)
Lemma main_loop_interrupted todo : forall st times rest,
  stdin st = (map Enter times ++ rest)%list ->
  (length times < length todo)%nat ->
  rest = [] \/ (exists tl, rest = CtrlC :: tl) ->
  exists e st',
    main_loop sched todo st = (Raise e, st')
    /\ (e = EOFError \/ e = KeyboardInterrupt)
    /\ files st' = files st.
Proof.
  induction todo as [|s todo IH]; intros st times rest Hin Hlen Hrest;
    [simpl in Hlen; lia|].
  rewrite main_loop_cons, log_arrival_run, Hin.
  destruct times as [|now times]; simpl.
  - destruct Hrest as [->|[tl ->]]; eauto 7.
  - edestruct (IH (mk_state (<[sequence s := now]> (actual_times st))
                     (stdout st ++ [prompt_of s] ++ [logged_line s now]
                      ++ view_lines (<[sequence s := now]> (actual_times st))
                           sched)%list
                     (map Enter times ++ rest)%list now (files st)
                     (isatty st)) times rest)
      as (e & st' & Hrun & He & Hf); [done|simpl in Hlen; lia|done|].
    eauto.
Qed.

(** As many arrivals as stops: the loop completes. *)
Lemma main_loop_complete todo : forall st times rest,
  stdin st = (map Enter times ++ rest)%list ->
  length times = length todo ->
  exists st',
    main_loop sched todo st = (Ok tt, st')
    /\ files st' = files st /\ stdin st' = rest.
Proof.
  induction todo as [|s todo IH]; intros st times rest Hin Hlen.
  - destruct times; [|done]. exists st. by rewrite Hin.
  - destruct times as [|now times]; [done|].
    rewrite main_loop_cons, log_arrival_run, Hin. simpl.
    edestruct (IH (mk_state (<[sequence s := now]> (actual_times st))
                     (stdout st ++ [prompt_of s] ++ [logged_line s now]
                      ++ view_lines (<[sequence s := now]> (actual_times st))
                           sched)%list
                     (map Enter times ++ rest)%list now (files st)
                     (isatty st)) times rest)
      as (st' & Hrun & Hf & Hrest); [done|simpl in Hlen; lia|].
    eauto.
Qed.

(** After a completed stretch of the loop the visited stops are those
    visited before together with the stops of the stretch. *)
Lemma main_loop_visited done : forall st st',
  main_loop sched done st = (Ok tt, st') ->
  forall k, is_Some (actual_times st' !! k)
            <-> is_Some (actual_times st !! k) \/ k ∈ sequences done.
Proof.
  induction done as [|s done IH]; intros st st' Hrun k.
  - injection Hrun as <-. unfold sequences; simpl.
    rewrite elem_of_nil. tauto.
  - rewrite main_loop_cons in Hrun.
    destruct (log_arrival sched s st) as [[[]|e] st1] eqn:Hstep; [|done].
    destruct (log_arrival_cases _ _ _ _ Hstep) as [_ [[_ Hrec]|[[?|?] _]]];
      [|done|done].
    rewrite (IH _ _ Hrun k), Hrec. unfold sequences; simpl.
    rewrite elem_of_cons, lookup_insert_is_Some.
    destruct (decide (sequence s = k)) as [->|Hne]; [tauto|].
    intuition congruence.
Qed.

End MainLoop.

(* ===================================================================== *)
(** ** The two-stop scenario *)
(* ===================================================================== *)

Lemma sub_same_date y m d h1 mi1 s1 u1 h2 mi2 s2 u2 :
  sub (mk_datetime y m d h1 mi1 s1 u1) (mk_datetime y m d h2 mi2 s2 u2)
  = ((s1 + mi1 * 60 + h1 * 3600) - (s2 + mi2 * 60 + h2 * 3600)) * 1000000
    + (u1 - u2).
Proof. unfold sub, toordinal, seconds_of_day. simpl. lia. Qed.

Lemma scenario_rows_first (today : datetime) :
  let on_day h m sec :=
    mk_datetime (year today) (month today) (day today) h m sec 0 in
  let sched := [ mk_stop 1 "09:43" "A" (on_day 9 43 0);
                 mk_stop 2 "09:45" "B" (on_day 9 45 0) ] in
  view_rows (<[1 := on_day 9 44 30]> ∅) sched None
  = [ mk_view_row 1 "A" "09:43" "09:44:30"
        (marker late ++ "+1m 30s" ++ RESET) "-";
      mk_view_row 2 "B" "09:45" "-" "-" "-" ].
Proof.
  intros on_day sched.
  set (rec1 := <[1 := on_day 9 44 30]> ∅ : gmap Z datetime).
  assert (H11 : rec1 !! 1 = Some (on_day 9 44 30))
    by apply lookup_insert_eq.
  assert (H12 : rec1 !! 2 = None)
    by (unfold rec1; by rewrite lookup_insert_ne, lookup_empty).
  unfold sched, view_rows. cbn [sequence].
  rewrite H11, H12. cbn [next_prev].
  rewrite tail_row_unvisited, !tail_row_visited.
  unfold dev_text, dev_sign, dev_minutes, dev_seconds, dev_total,
    format_deviation, on_day.
  cbn [target_time sequence stop].
  rewrite !sub_same_date. reflexivity.
Qed.

Lemma scenario_rows_second (today : datetime) :
  let on_day h m sec :=
    mk_datetime (year today) (month today) (day today) h m sec 0 in
  let sched := [ mk_stop 1 "09:43" "A" (on_day 9 43 0);
                 mk_stop 2 "09:45" "B" (on_day 9 45 0) ] in
  let rec2 : gmap Z datetime :=
    <[2 := on_day 9 47 0]> (<[1 := on_day 9 44 30]> ∅) in
  view_rows rec2 sched None
  = [ mk_view_row 1 "A" "09:43" "09:44:30"
        (marker late ++ "+1m 30s" ++ RESET) "-";
      mk_view_row 2 "B" "09:45" "09:47:00"
        (marker late ++ "+2m 0s" ++ RESET) "2m 30s" ]
  /\ map csv_cells (export_rows rec2 sched None)
     = [ [ "1"; "A"; "09:43"; strftime_Ymd_HMS (on_day 9 44 30); "+1m 30s";
           "90"; "" ];
         [ "2"; "B"; "09:45"; strftime_Ymd_HMS (on_day 9 47 0); "+2m 0s";
           "120"; "2m 30s" ] ].
Proof.
  intros on_day sched rec2.
  assert (H21 : rec2 !! 1 = Some (on_day 9 44 30))
    by (unfold rec2; by rewrite lookup_insert_ne).
  assert (H22 : rec2 !! 2 = Some (on_day 9 47 0))
    by apply lookup_insert_eq.
  unfold sched, view_rows, export_rows, map. cbn [sequence].
  rewrite H21, H22. cbn [next_prev].
  rewrite !tail_row_visited, !csv_row_visited.
  unfold csv_cells, dev_text, dev_sign, dev_minutes, dev_seconds, dev_total,
    format_deviation, on_day.
  cbn [target_time e_seq e_name e_target e_actual e_deviation e_total_sec
       e_travel sequence stop].
  rewrite !sub_same_date. split; reflexivity.
Qed.

(** C7.  The script over the schedule [(1, "09:43", "A"); (2, "09:45",
    "B")], started on any day, with the first prompt answered at 09:44:30
    and the second at 09:47:00 of that day.  It completes.  The tail view it
    prints after the first arrival shows stop 1 with deviation ["+1m 30s"]
    in the late marker and the placeholder as travel segment, and stop 2
    unvisited; the tail view after the second arrival shows stop 2 with
    deviation ["+2m 0s"] and travel segment ["2m 30s"]; the exported file
    has the same deviations and travel segments. *)
Theorem scenario_two_stops (st : state) (rest : list event) :
  let today := clock st in
  let on_day h m sec :=
    mk_datetime (year today) (month today) (day today) h m sec 0 in
  stdin st = Enter (on_day 9 44 30) :: Enter (on_day 9 47 0) :: rest ->
  exists st',
    script_with [ (1, "09:43", "A"); (2, "09:45", "B") ] st = (Ok tt, st')
    /\ stdout st'
       = (stdout st
          ++ [ printed "Manual bus stop logger (with scheduled times)";
               printed "Press ENTER when the bus reaches each stop to log actual time.";
               printed ("Script will show deviations vs scheduled times and travel time from previous stop." ++ Py.LF);
               "Press ENTER at stop 1 - A (scheduled 09:43) -> ";
               printed ("Logged: A at " ++ strftime_Ymd_HMS (on_day 9 44 30));
               printed status_banner;
               printed tail_header;
               printed (tail_line
                          (mk_view_row 1 "A" "09:43" "09:44:30"
                             (marker late ++ "+1m 30s" ++ RESET) "-"));
               printed (tail_line (mk_view_row 2 "B" "09:45" "-" "-" "-"));
               printed status_footer;
               "Press ENTER at stop 2 - B (scheduled 09:45) -> ";
               printed ("Logged: B at " ++ strftime_Ymd_HMS (on_day 9 47 0));
               printed status_banner;
               printed tail_header;
               printed (tail_line
                          (mk_view_row 1 "A" "09:43" "09:44:30"
                             (marker late ++ "+1m 30s" ++ RESET) "-"));
               printed (tail_line
                          (mk_view_row 2 "B" "09:45" "09:47:00"
                             (marker late ++ "+2m 0s" ++ RESET) "2m 30s"));
               printed status_footer;
               printed (Py.LF ++ "All logged data saved to 'bus_trip_log.csv'.")
             ])%list
    /\ files st' !! output_csv
       = Some [ csv_header;
                [ "1"; "A"; "09:43"; strftime_Ymd_HMS (on_day 9 44 30);
                  "+1m 30s"; "90"; "" ];
                [ "2"; "B"; "09:45"; strftime_Ymd_HMS (on_day 9 47 0);
                  "+2m 0s"; "120"; "2m 30s" ] ]
    /\ stdin st' = rest.
Proof.
  intros today on_day Hin.
  destruct st as [rec out inp clk fs tty]. simpl in today, Hin. subst inp.
  set (sched := [ mk_stop 1 "09:43" "A" (on_day 9 43 0);
                  mk_stop 2 "09:45" "B" (on_day 9 45 0) ]).
  assert (Hsched : forall st0,
             set_target_times clk [ (1, "09:43", "A"); (2, "09:45", "B") ] st0
             = (Ok sched, st0)) by reflexivity.
  unfold script_with, mbind, py_bind, datetime_now. cbn [clock].
  rewrite Hsched. unfold dict_new. rewrite !print_run. cbv beta iota zeta.
  unfold sched at 2.
  rewrite main_loop_cons, log_arrival_run. cbn [stdin with_stdout].
  cbv beta iota zeta.
  rewrite main_loop_cons, log_arrival_run. cbn [stdin].
  cbv beta iota zeta.
  change (main_loop sched [] ?s) with (@mret py _ _ tt s).
  unfold mret, py_ret.
  rewrite save_csv_run, print_run.
  eexists. split; [reflexivity|].
  cbn [stdout files stdin actual_times with_stdout with_files].
  pose proof (scenario_rows_first clk) as Hrows1.
  pose proof (scenario_rows_second clk) as Hrows2.
  cbv zeta beta in Hrows1, Hrows2. destruct Hrows2 as [Hrows2 Hcsv].
  cbn [sequence]. subst sched on_day today. cbv beta.
  split; [|split; [|reflexivity]].
  - unfold view_lines. rewrite Hrows1, Hrows2.
    rewrite <- !app_assoc. reflexivity.
  - rewrite lookup_insert_eq, Hcsv. reflexivity.
Qed.

(** The scenario on 17 May 2024, started at 09:40: the line of stop 2 in the
    second tail view and the exported file. *)
Lemma scenario_two_stops_witness :
  let on_day h m sec := mk_datetime 2024 5 17 h m sec 0 in
  let st := mk_state ∅ [] [Enter (on_day 9 44 30); Enter (on_day 9 47 0)]
                     (on_day 9 40 0) ∅ true in
  exists st',
    script_with [ (1, "09:43", "A"); (2, "09:45", "B") ] st = (Ok tt, st')
    /\ stdout st' !! 15%nat
       = Some (printed
                 ("2   B                         09:45  09:47:00 "
                  ++ RED ++ "+2m 0s" ++ RESET ++ " 2m 30s"))
    /\ files st' !! output_csv
       = Some [ csv_header;
                [ "1"; "A"; "09:43"; "2024-05-17 09:44:30"; "+1m 30s"; "90";
                  "" ];
                [ "2"; "B"; "09:45"; "2024-05-17 09:47:00"; "+2m 0s"; "120";
                  "2m 30s" ] ].
Proof.
  intros on_day st.
  destruct (scenario_two_stops st [] eq_refl)
    as (st' & Hrun & Hout & Hfile & _).
  exists st'. split; [exact Hrun|]. split; [|exact Hfile].
  rewrite Hout. reflexivity.
Defined.

(* ===================================================================== *)
(** ** Interrupted runs and the export *)
(* ===================================================================== *)

(** The script's own schedule, anchored at any date: ten stops numbered
    1 to 10. *)
Lemma bus_stops_anchored (today : datetime) (st : state) :
  exists sched,
    set_target_times today bus_stops st = (Ok sched, st)
    /\ sequences sched = [1; 2; 3; 4; 5; 6; 7; 8; 9; 10]
    /\ NoDup (sequences sched).
Proof.
  eexists. split; [reflexivity|]. split; [reflexivity|].
  change (NoDup [1; 2; 3; 4; 5; 6; 7; 8; 9; 10]).
  apply (bool_decide_unpack _). vm_compute. exact I.
Qed.

(** C4, counterexample.  Three stops; the first is logged, then the prompt
    for the second is interrupted.  The script ends with the exception, the
    arrival of stop 1 is in the record, and no export file exists. *)
Lemma interrupted_run_writes_no_export :
  let on_day h m sec := mk_datetime 2024 5 17 h m sec 0 in
  let raw := [ (1, "09:43", "A"); (2, "09:45", "B"); (3, "09:47", "C") ] in
  let st := mk_state ∅ [] [Enter (on_day 9 44 30); CtrlC] (on_day 9 40 0) ∅
                     true in
  let out := script_with raw st in
  out.1 = Raise KeyboardInterrupt
  /\ actual_times out.2 !! 1 = Some (on_day 9 44 30)
  /\ files out.2 !! output_csv = None.
Proof. vm_compute. repeat split. Qed.

(** C4, as amended.  If the main loop is interrupted (end of input or a
    keyboard interrupt at a prompt) before every stop has been processed,
    the script ends with that exception and performs no export: the files
    are left exactly as they were.  The export is performed only when the
    loop has processed every stop; it then holds the header and one row per
    stop. *)
Theorem export_only_after_complete_loop
  (raw : list entry) (st : state) (sched : list Stop)
  (times : list datetime) (rest : list event) :
  set_target_times (clock st) raw st = (Ok sched, st) ->
  stdin st = (map Enter times ++ rest)%list ->
  ((length times < length sched)%nat ->
   rest = [] \/ (exists tl, rest = CtrlC :: tl) ->
   exists e st',
     script_with raw st = (Raise e, st')
     /\ (e = EOFError \/ e = KeyboardInterrupt)
     /\ files st' = files st)
  /\ (length times = length sched ->
      exists st' rows,
        script_with raw st = (Ok tt, st')
        /\ files st' !! output_csv = Some (csv_header :: map csv_cells rows)
        /\ rows = export_rows (actual_times st') sched None
        /\ length rows = length sched).
Proof.
  intros Hsched Hin.
  unfold script_with, mbind, py_bind, datetime_now.
  rewrite Hsched. unfold dict_new. rewrite !print_run.
  cbv beta iota zeta.
  match goal with
  | |- context [main_loop sched sched ?s] => set (st2 := s)
  end.
  assert (Hin2 : stdin st2 = (map Enter times ++ rest)%list) by exact Hin.
  split.
  - intros Hlen Hrest.
    destruct (main_loop_interrupted sched sched st2 times rest Hin2 Hlen Hrest)
      as (e & st' & -> & He & Hf).
    exists e, st'. auto.
  - intros Hlen.
    destruct (main_loop_complete sched sched st2 times rest Hin2 Hlen)
      as (st' & -> & Hf & _).
    rewrite save_csv_run, print_run. eexists _, _.
    split; [reflexivity|]. simpl.
    split; [by rewrite lookup_insert_eq|].
    split; [reflexivity|]. apply export_rows_length.
Qed.

Lemma export_only_after_complete_loop_witness :
  let on_day h m sec := mk_datetime 2024 5 17 h m sec 0 in
  let raw := [ (1, "09:43", "A"); (2, "09:45", "B"); (3, "09:47", "C") ] in
  let st := mk_state ∅ [] [Enter (on_day 9 44 30)] (on_day 9 40 0) ∅ true in
  exists e st',
    script_with raw st = (Raise e, st')
    /\ (e = EOFError \/ e = KeyboardInterrupt)
    /\ files st' = files st.
Proof.
  intros on_day raw st.
  apply (export_only_after_complete_loop raw st
           [ mk_stop 1 "09:43" "A" (on_day 9 43 0);
             mk_stop 2 "09:45" "B" (on_day 9 45 0);
             mk_stop 3 "09:47" "C" (on_day 9 47 0) ]
           [on_day 9 44 30] [] eq_refl eq_refl).
  - simpl. lia.
  - left. reflexivity.
Defined.

(* ===================================================================== *)
(** ** The arrival record only grows *)
(* ===================================================================== *)

(** C8.  Sequence numbers are unique.  Split a run of the main loop, started
    with an empty record, just before the step of a stop [s]: the stops with
    a recorded arrival are exactly those already processed, so [s] is still
    unvisited; its step, if it is not interrupted, records the clock reading
    under the sequence number of [s] and changes no other entry, and if it
    is interrupted it leaves the record as it was.  In both cases every
    recorded arrival is still there with the same timestamp.  Printing the
    tail view and exporting do not change the record. *)
Theorem arrival_record_only_grows
  (sched done rest : list Stop) (s : Stop) (st0 st1 : state) :
  NoDup (sequences sched) ->
  sched = (done ++ s :: rest)%list ->
  actual_times st0 = ∅ ->
  main_loop sched done st0 = (Ok tt, st1) ->
  (forall k, is_Some (actual_times st1 !! k) <-> k ∈ sequences done)
  /\ actual_times st1 !! sequence s = None
  /\ forall r st2,
       log_arrival sched s st1 = (r, st2) ->
       (forall k t, actual_times st1 !! k = Some t ->
                    actual_times st2 !! k = Some t)
       /\ (forall k, k <> sequence s ->
                     actual_times st2 !! k = actual_times st1 !! k)
       /\ (r = Ok tt -> actual_times st2 !! sequence s = Some (clock st2))
       /\ (r <> Ok tt -> actual_times st2 = actual_times st1)
       /\ actual_times (print_tail_view sched st2).2 = actual_times st2
       /\ actual_times (save_csv sched st2).2 = actual_times st2.
Proof.
  intros Hnodup -> Hempty Hrun.
  assert (Hdom : forall k, is_Some (actual_times st1 !! k)
                           <-> k ∈ sequences done).
  { intros k. rewrite (main_loop_visited _ _ _ _ Hrun k), Hempty.
    rewrite lookup_empty, is_Some_alt. tauto. }
  assert (Hfresh : actual_times st1 !! sequence s = None).
  { apply eq_None_not_Some. rewrite Hdom.
    unfold sequences in *. rewrite map_app in Hnodup. simpl in Hnodup.
    apply NoDup_app in Hnodup as (_ & Hdisj & _).
    intros Hin. apply (Hdisj _ Hin). apply elem_of_cons. by left. }
  split; [exact Hdom|]. split; [exact Hfresh|].
  intros r st2 Hstep.
  rewrite print_tail_view_run, save_csv_run.
  destruct (log_arrival_cases _ _ _ _ _ Hstep)
    as [_ [[-> Hrec]|[Hr Hrec]]]; rewrite Hrec.
  - repeat split; try done.
    + intros k t Hk. rewrite lookup_insert_ne; [done|]. congruence.
    + intros k Hk. by rewrite lookup_insert_ne.
    + intros _. apply lookup_insert_eq.
  - repeat split; try done. destruct Hr as [-> | ->]; done.
Qed.

(** The script's own ten stops: after two logged arrivals the third stop is
    unvisited, and its step keeps the first two timestamps. *)
Lemma arrival_record_only_grows_witness :
  let on_day h m sec := mk_datetime 2024 5 17 h m sec 0 in
  let st := mk_state ∅ []
              [Enter (on_day 9 44 30); Enter (on_day 9 47 0);
               Enter (on_day 9 48 5)] (on_day 9 40 0) ∅ true in
  exists sched done s rest st1,
    set_target_times (on_day 9 40 0) bus_stops st = (Ok sched, st)
    /\ sched = (done ++ s :: rest)%list /\ sequence s = 3
    /\ main_loop sched done st = (Ok tt, st1)
    /\ actual_times st1 !! 3 = None
    /\ forall r st2,
         log_arrival sched s st1 = (r, st2) ->
         actual_times st2 !! 1 = Some (on_day 9 44 30).
Proof.
  intros on_day st.
  destruct (bus_stops_anchored (on_day 9 40 0) st) as (sched & Hs & _ & Hnd).
  injection Hs as Hs.
  exists sched, (take 2 sched), (mk_stop 3 "09:47" "Lancy-Pont-Rouge, gare"
                                        (on_day 9 47 0)),
    (drop 3 sched), (main_loop sched (take 2 sched) st).2.
  assert (Hsplit : sched
                   = (take 2 sched
                      ++ mk_stop 3 "09:47" "Lancy-Pont-Rouge, gare"
                                 (on_day 9 47 0) :: drop 3 sched)%list)
    by (rewrite <- Hs; reflexivity).
  assert (Hrun : main_loop sched (take 2 sched) st
                 = (Ok tt, (main_loop sched (take 2 sched) st).2))
    by (rewrite <- Hs; vm_compute; reflexivity).
  destruct (arrival_record_only_grows sched (take 2 sched) (drop 3 sched)
              (mk_stop 3 "09:47" "Lancy-Pont-Rouge, gare" (on_day 9 47 0))
              st _ Hnd Hsplit eq_refl Hrun) as (_ & Hfresh & Hstep).
  split; [by rewrite <- Hs|]. split; [exact Hsplit|].
  split; [reflexivity|]. split; [exact Hrun|]. split; [exact Hfresh|].
  intros r st2 Hlog. destruct (Hstep r st2 Hlog) as (Hkeep & _).
  apply Hkeep. rewrite <- Hs. vm_compute. reflexivity.
Defined.

(* ===================================================================== *)
(** ** Start-up: anchoring the schedule *)
(* ===================================================================== *)

Section Startup.
Variable today : datetime.
Lemma set_target_times_run raw st :
  set_target_times today raw st
  = (match mapM (anchor today) raw with
     | Some sched => Ok sched
     | None => Raise ValueError
     end, st).
Proof.
  induction raw as [|[[seq hh_mm] name] raw IH]; [done|].
  change (mapM (anchor today) ((seq, hh_mm, name) :: raw))
    with (anchor today (seq, hh_mm, name)
          ≫= fun x => mapM (anchor today) raw ≫= fun k => mret (x :: k)).
  cbn [set_target_times].
  destruct (strptime_HM hh_mm) as [d|] eqn:E.
  - assert (anchor today (seq, hh_mm, name)
            = Some (mk_stop seq hh_mm name
                      (replace_date d (year today) (month today)
                         (day today)))) as ->
      by (unfold anchor; simpl; by rewrite E).
    unfold mbind at 1, py_bind. rewrite IH.
    by destruct (mapM (anchor today) raw).
  - assert (anchor today (seq, hh_mm, name) = None) as ->
      by (unfold anchor; simpl; by rewrite E).
    reflexivity.
Qed.

Lemma strptime_HM_fields s d :
  strptime_HM s = Some d ->
  year d = 1900 /\ month d = 1 /\ day d = 1
  /\ 0 <= hour d <= 23 /\ 0 <= minute d <= 59
  /\ second d = 0 /\ microsecond d = 0.
Proof.
  assert (Hdig : forall c n, digit_of c = Some n -> 0 <= n <= 9).
  { intros c n. unfold digit_of.
    destruct (_ && _) eqn:E; [|done]. intros [= <-]. lia. }
  assert (Hfield : forall t n r, parse_field t = Some (n, r) -> 0 <= n).
  { intros [|c1 r1] n r; simpl; [done|].
    destruct (digit_of c1) as [d1|] eqn:E1; [|done].
    pose proof (Hdig _ _ E1).
    destruct r1 as [|c2 r2]; [intros [= <- _]; lia|].
    destruct (digit_of c2) as [d2|] eqn:E2; intros [= <- _]; [|lia].
    pose proof (Hdig _ _ E2). lia. }
  unfold strptime_HM.
  destruct (parse_field s) as [[h r]|] eqn:Eh; [|done].
  destruct r as [|c r]; [done|].
  destruct (Ascii.eqb_spec c ":") as [->|Hc].
  2:{ destruct c as [[] [] [] [] [] [] [] []]; done. }
  destruct (parse_field r) as [[m r']|] eqn:Em; [|done].
  destruct r'; [|done].
  destruct (_ && _) eqn:E; [|done]. intros [= <-]. simpl.
  pose proof (Hfield _ _ _ Eh). pose proof (Hfield _ _ _ Em). lia.
Qed.

End Startup.

(** A five-character [dd:dd] text that parses gives the hour and the minute
    its digits spell. *)
Lemma strptime_HM_canonical c1 c2 c3 c4 d :
  strptime_HM (String c1 (String c2 (String ":" (String c3 (String c4 "")))))
  = Some d ->
  exists d1 d2 d3 d4,
    digit_of c1 = Some d1 /\ digit_of c2 = Some d2
    /\ digit_of c3 = Some d3 /\ digit_of c4 = Some d4
    /\ hour d = 10 * d1 + d2 /\ minute d = 10 * d3 + d4.
Proof.
  unfold strptime_HM, parse_field.
  destruct (digit_of c1) as [d1|] eqn:E1; [|done].
  destruct (digit_of c2) as [d2|] eqn:E2.
  - destruct (digit_of c3) as [d3|] eqn:E3; [|done].
    destruct (digit_of c4) as [d4|] eqn:E4; [|done].
    destruct (_ && _); [|done]. intros [= <-].
    exists d1, d2, d3, d4. done.
  - destruct (Ascii.eqb_spec c2 ":") as [->|Hne]; [done|].
    destruct c2 as [[] [] [] [] [] [] [] []]; done.
Qed.

(** X1.  When every scheduled time of the schedule literal parses, the
    start-up loop succeeds without touching the state and yields one stop
    per entry, in order, with the entry's sequence number, time text and
    name.  The target time of each stop is on today's date, at the hour and
    minute parsed from its time text (for a text of two digits, a colon and
    two digits: the numbers those digits spell), with zero seconds and
    microseconds. *)
Theorem schedule_anchored_to_today
  (today : datetime) (raw : list entry) (st : state) :
  Forall (fun e : entry => is_Some (strptime_HM e.1.2)) raw ->
  exists sched,
    set_target_times today raw st = (Ok sched, st)
    /\ length sched = length raw
    /\ forall i seq hh_mm name,
         raw !! i = Some (seq, hh_mm, name) ->
         exists s d,
           sched !! i = Some s
           /\ sequence s = seq /\ time s = hh_mm /\ stop s = name
           /\ strptime_HM hh_mm = Some d
           /\ target_time s
              = mk_datetime (year today) (month today) (day today)
                  (hour d) (minute d) 0 0
           /\ 0 <= hour d <= 23 /\ 0 <= minute d <= 59
           /\ forall c1 c2 c3 c4 d1 d2 d3 d4,
                hh_mm
                = String c1 (String c2 (String ":" (String c3 (String c4 ""))))
                ->
                digit_of c1 = Some d1 -> digit_of c2 = Some d2 ->
                digit_of c3 = Some d3 -> digit_of c4 = Some d4 ->
                hour (target_time s) = 10 * d1 + d2
                /\ minute (target_time s) = 10 * d3 + d4.
Proof.
  intros Hall. rewrite set_target_times_run.
  destruct (mapM (anchor today) raw) as [sched|] eqn:Hm.
  - exists sched. split; [done|].
    apply mapM_Some in Hm.
    split; [symmetry; by eapply Forall2_length|].
    intros i seq hh_mm name Hi.
    destruct (Forall2_lookup_l _ _ _ _ _ Hm Hi) as (s & Hs & Hanchor).
    unfold anchor in Hanchor. simpl in Hanchor.
    destruct (strptime_HM hh_mm) as [d|] eqn:Ed; [|done].
    injection Hanchor as <-. eexists _, d. simpl.
    destruct (strptime_HM_fields _ _ Ed) as (_ & _ & _ & ? & ? & Hsec & Hus).
    split; [done|]. do 4 (split; [done|]).
    split; [unfold replace_date; by rewrite Hsec, Hus|].
    do 2 (split; [done|]).
    intros c1 c2 c3 c4 d1 d2 d3 d4 -> H1 H2 H3 H4.
    destruct (strptime_HM_canonical _ _ _ _ _ Ed)
      as (e1 & e2 & e3 & e4 & G1 & G2 & G3 & G4 & Hh & Hmi).
    assert (e1 = d1) as -> by congruence.
    assert (e2 = d2) as -> by congruence.
    assert (e3 = d3) as -> by congruence.
    assert (e4 = d4) as -> by congruence.
    cbn [target_time replace_date hour minute]. done.
  - apply mapM_None in Hm. apply Exists_exists in Hm as (e & He & Hnone).
    rewrite Forall_forall in Hall.
    destruct (Hall e He) as [s Hs].
    unfold anchor in Hnone. rewrite Hs in Hnone. done.
Qed.

(** The script's own schedule: the seventh stop is due at 09:54:00 of the
    day the script starts, whatever the time of day it starts at. *)
Lemma schedule_anchored_to_today_witness :
  let today := mk_datetime 2024 5 17 8 15 42 123456 in
  let st := mk_state ∅ [] [] today ∅ true in
  exists sched s,
    set_target_times today bus_stops st = (Ok sched, st)
    /\ length sched = 10%nat
    /\ sched !! 6%nat = Some s
    /\ target_time s = mk_datetime 2024 5 17 9 54 0 0.
Proof.
  intros today st.
  destruct (schedule_anchored_to_today today bus_stops st)
    as (sched & Hrun & Hlen & Hstops).
  - repeat constructor; vm_compute; eauto.
  - destruct (Hstops 6%nat 7 "09:54" "Salle communale" eq_refl)
      as (s & d & Hs & _ & _ & _ & Hd & Htarget & _).
    exists sched, s. split; [exact Hrun|]. split; [exact Hlen|].
    split; [exact Hs|]. rewrite Htarget.
    vm_compute in Hd. injection Hd as <-. reflexivity.
Defined.

(** X2.  When some scheduled time, written in ASCII characters, is not an
    hour 0..23, a colon and a minute 0..59, the script ends with
    [ValueError] before anything is printed, read or written: the state is
    the one it started in. *)
Theorem malformed_time_aborts_at_startup (raw : list entry) (st : state) :
  Exists (fun e : entry =>
            Py.ascii_only e.1.2 = true /\ strptime_HM e.1.2 = None) raw ->
  script_with raw st = (Raise ValueError, st).
Proof.
  intros Hbad.
  unfold script_with, mbind at 1, py_bind, datetime_now.
  unfold mbind at 1. rewrite set_target_times_run.
  assert (mapM (anchor (clock st)) raw = None) as ->; [|done].
  apply mapM_None. eapply Exists_impl; [exact Hbad|].
  intros e [_ He]. unfold anchor. by rewrite He.
Qed.

Lemma malformed_time_aborts_at_startup_witness :
  let st := mk_state ∅ [] [Enter (mk_datetime 2024 5 17 9 44 30 0)]
              (mk_datetime 2024 5 17 9 40 0 0) ∅ true in
  script_with [ (1, "09:43", "A"); (2, "24:00", "B") ] st
  = (Raise ValueError, st).
Proof.
  intros st. apply malformed_time_aborts_at_startup.
  apply Exists_cons_tl, Exists_cons_hd. split; reflexivity.
Defined.



(* ===================================================================== *)
(** ** The Target column *)
(* ===================================================================== *)

Section TargetText.

Lemma digit_char c d :
  digit_of c = Some d ->
  0 <= d <= 9 /\ c = ascii_of_N (Z.to_N (48 + d)).
Proof.
  unfold digit_of. destruct (_ && _) eqn:E; [|done]. intros [= <-].
  split; [lia|].
  replace (48 + (Z.of_N (N_of_ascii c) - 48)) with (Z.of_N (N_of_ascii c))
    by lia.
  by rewrite N2Z.id, ascii_N_embedding.
Qed.

Lemma zfill_two_digits d1 d2 :
  0 <= d1 <= 9 -> 0 <= d2 <= 9 ->
  Py.zfill 2 (10 * d1 + d2)
  = String (ascii_of_N (Z.to_N (48 + d1)))
      (String (ascii_of_N (Z.to_N (48 + d2))) "").
Proof.
  intros H1 H2.
  assert (Hd1 : d1 = 0 \/ d1 = 1 \/ d1 = 2 \/ d1 = 3 \/ d1 = 4 \/ d1 = 5
                \/ d1 = 6 \/ d1 = 7 \/ d1 = 8 \/ d1 = 9) by lia.
  assert (Hd2 : d2 = 0 \/ d2 = 1 \/ d2 = 2 \/ d2 = 3 \/ d2 = 4 \/ d2 = 5
                \/ d2 = 6 \/ d2 = 7 \/ d2 = 8 \/ d2 = 9) by lia.
  clear H1 H2.
  repeat (destruct Hd1 as [->|Hd1]); try subst d1;
    repeat (destruct Hd2 as [->|Hd2]); try subst d2; reflexivity.
Qed.

(** A five-character [dd:dd] text that parses is rendered back unchanged. *)
Lemma strptime_strftime_canonical c1 c2 c3 c4 d :
  strptime_HM (String c1 (String c2 (String ":" (String c3 (String c4 "")))))
  = Some d ->
  strftime_HM d
  = String c1 (String c2 (String ":" (String c3 (String c4 "")))).
Proof.
  unfold strptime_HM, parse_field.
  destruct (digit_of c1) as [d1|] eqn:E1; [|done].
  destruct (digit_of c2) as [d2|] eqn:E2.
  - destruct (digit_of c3) as [d3|] eqn:E3; [|done].
    destruct (digit_of c4) as [d4|] eqn:E4; [|done].
    destruct (_ && _); [|done]. intros [= <-].
    destruct (digit_char _ _ E1) as [? ->], (digit_char _ _ E2) as [? ->],
      (digit_char _ _ E3) as [? ->], (digit_char _ _ E4) as [? ->].
    unfold strftime_HM. cbn [hour minute].
    by rewrite !zfill_two_digits.
  - destruct (Ascii.eqb_spec c2 ":") as [->|Hne]; [done|].
    destruct c2 as [[] [] [] [] [] [] [] []]; done.
Qed.

End TargetText.

(** X11.  For a stop whose scheduled time is written with two digits, a
    colon and two digits, the Target column of the view and of the export
    shows that text unchanged: parsing it at start-up and formatting the
    target time give it back. *)
Theorem target_column_repeats_schedule_time
  (today : datetime) (raw : list entry) (st : state) (sched : list Stop)
  (i : nat) (s : Stop) (c1 c2 c3 c4 : ascii)
  (actual_dt prev_actual : option datetime) :
  set_target_times today raw st = (Ok sched, st) ->
  sched !! i = Some s ->
  time s = String c1 (String c2 (String ":" (String c3 (String c4 "")))) ->
  strftime_HM (target_time s) = time s
  /\ v_target (tail_row s actual_dt prev_actual) = time s
  /\ e_target (csv_row s actual_dt prev_actual) = time s.
Proof.
  intros Hrun Hs Htime. rewrite set_target_times_run in Hrun.
  destruct (mapM (anchor today) raw) as [sched'|] eqn:Hm; [|done].
  injection Hrun as ->. apply mapM_Some in Hm.
  destruct (Forall2_lookup_r _ _ _ _ _ Hm Hs) as (e & _ & Ha).
  unfold anchor in Ha.
  destruct (strptime_HM e.1.2) as [d|] eqn:Ed; [|done].
  injection Ha as <-. simpl in *. rewrite Htime in Ed.
  assert (Hfmt : strftime_HM
                   (replace_date d (year today) (month today) (day today))
                 = e.1.2).
  { rewrite Htime. rewrite <- (strptime_strftime_canonical _ _ _ _ _ Ed).
    reflexivity. }
  split; [exact Hfmt|].
  destruct actual_dt; [rewrite tail_row_visited, csv_row_visited
                      |rewrite tail_row_unvisited, csv_row_unvisited];
    simpl; by rewrite Hfmt.
Qed.

Lemma target_column_repeats_schedule_time_witness :
  let today := mk_datetime 2024 5 17 8 15 42 123456 in
  let st := mk_state ∅ [] [] today ∅ true in
  let s := mk_stop 7 "09:54" "Salle communale"
             (mk_datetime 2024 5 17 9 54 0 0) in
  v_target (tail_row s None None) = "09:54"
  /\ e_target (csv_row s None None) = "09:54".
Proof.
  intros today st s.
  destruct (bus_stops_anchored today st) as (sched & Hrun & _).
  injection Hrun as Hsched.
  apply (target_column_repeats_schedule_time today bus_stops st sched 6 s
           "0" "9" "5" "4" None None).
  - rewrite <- Hsched. reflexivity.
  - rewrite <- Hsched. reflexivity.
  - reflexivity.
Defined.

(* ===================================================================== *)
(** ** What a run leaves in the record *)
(* ===================================================================== *)

Section RecordAfter.

Lemma record_after_cons rec s todo t times :
  record_after rec (s :: todo) (t :: times)
  = record_after (<[sequence s := t]> rec) todo times.
Proof. reflexivity. Qed.

Lemma record_after_notin todo : forall rec times k,
  k ∉ sequences todo ->
  record_after rec todo times !! k = rec !! k.
Proof.
  induction todo as [|s todo IH]; intros rec [|t times] k Hk; try done.
  rewrite record_after_cons.
  unfold sequences in Hk. simpl in Hk. apply not_elem_of_cons in Hk as [Hne Hk].
  rewrite IH by done. by rewrite lookup_insert_ne.
Qed.

(** The last stop carrying a sequence number decides its entry. *)
Lemma record_after_last todo : forall rec times i s t,
  todo !! i = Some s -> times !! i = Some t ->
  (forall j sj, (i < j)%nat -> todo !! j = Some sj ->
                sequence sj <> sequence s) ->
  record_after rec todo times !! sequence s = Some t.
Proof.
  induction todo as [|s0 todo IH]; intros rec times i s t Hs Ht Hlast;
    [done|].
  destruct times as [|t0 times]; [done|].
  rewrite record_after_cons. destruct i as [|i]; simplify_eq/=.
  - rewrite record_after_notin; [apply lookup_insert_eq|].
    unfold sequences. intros (sj & Heq & Hin)%list_elem_of_fmap.
    apply list_elem_of_lookup in Hin as [j Hj].
    apply (Hlast (S j) sj); [lia|done|done].
  - apply (IH _ _ i); [done|done|].
    intros j sj Hj Hsj. apply (Hlast (S j)); [lia|done].
Qed.

Lemma record_after_app rec done todo times1 times2 :
  length times1 = length done ->
  record_after rec (done ++ todo) (times1 ++ times2)
  = record_after (record_after rec done times1) todo times2.
Proof.
  intros Hlen. unfold record_after.
  rewrite zip_with_app by done. apply foldl_app.
Qed.

Variable sched : list Stop.

Lemma main_loop_complete_record todo : forall st times rest,
  stdin st = (map Enter times ++ rest)%list ->
  length times = length todo ->
  exists st',
    main_loop sched todo st = (Ok tt, st')
    /\ actual_times st' = record_after (actual_times st) todo times
    /\ stdin st' = rest /\ files st' = files st
    /\ isatty st' = isatty st
    /\ clock st' = default (clock st) (last times).
Proof.
  induction todo as [|s todo IH]; intros st times rest Hin Hlen.
  - destruct times; [|done]. exists st. simpl in Hin.
    repeat split; done.
  - destruct times as [|now times]; [done|].
    rewrite main_loop_cons, log_arrival_run, Hin. simpl.
    edestruct (IH (mk_state (<[sequence s := now]> (actual_times st))
                     (stdout st ++ [prompt_of s] ++ [logged_line s now]
                      ++ view_lines (<[sequence s := now]> (actual_times st))
                           sched)%list
                     (map Enter times ++ rest)%list now (files st)
                     (isatty st)) times rest)
      as (st' & Hrun & Hrec & Hrest & Hf & Htty & Hclk);
      [done|simpl in Hlen; lia|].
    exists st'. rewrite record_after_cons.
    repeat split; try done.
    rewrite Hclk. cbn [clock]. rewrite last_cons. by destruct (last times).
Qed.

(** Fewer arrivals than stops: the loop stops at the prompt of the first
    stop without an arrival. *)
Lemma main_loop_interrupted_record todo : forall st times rest s,
  stdin st = (map Enter times ++ rest)%list ->
  todo !! length times = Some s ->
  rest = [] \/ (exists tl, rest = CtrlC :: tl) ->
  exists st',
    main_loop sched todo st
    = (Raise (if rest is [] then EOFError else KeyboardInterrupt), st')
    /\ actual_times st'
       = record_after (actual_times st) (take (length times) todo) times
    /\ last (stdout st') = Some (prompt_of s)
    /\ stdin st' = tail rest
    /\ files st' = files st.
Proof.
  induction todo as [|s0 todo IH]; intros st times rest s Hin Hs Hrest;
    [done|].
  rewrite main_loop_cons, log_arrival_run, Hin.
  destruct times as [|now times]; simpl in *.
  - injection Hs as ->.
    destruct Hrest as [->|[tl ->]]; simpl; eexists; (split; [reflexivity|]);
      simpl; rewrite last_snoc; done.
  - edestruct (IH (mk_state (<[sequence s0 := now]> (actual_times st))
                     (stdout st ++ [prompt_of s0] ++ [logged_line s0 now]
                      ++ view_lines (<[sequence s0 := now]> (actual_times st))
                           sched)%list
                     (map Enter times ++ rest)%list now (files st)
                     (isatty st)) times rest s)
      as (st' & Hrun & Hrec & Hlast & Hin' & Hf); [done|done|done|].
    exists st'. rewrite record_after_cons. done.
Qed.

End RecordAfter.

(* ===================================================================== *)
(** ** Complete and interrupted runs *)
(* ===================================================================== *)

Lemma nodup_no_later_duplicate sched i s :
  NoDup (sequences sched) -> sched !! i = Some s ->
  forall j sj, (i < j)%nat -> sched !! j = Some sj ->
               sequence sj <> sequence s.
Proof.
  intros Hnd Hs j sj Hj Hsj Heq.
  assert (i = j); [|lia].
  apply (NoDup_lookup (sequences sched) i j (sequence s) Hnd);
    unfold sequences;
    change (map ?f ?l) with (f <$> l); rewrite list_lookup_fmap.
  - by rewrite Hs.
  - by rewrite Hsj, <- Heq.
Qed.

(** X3.  A run of the main loop that meets one line of input per stop
    completes, reads exactly those lines, and leaves under the sequence
    number of each stop the clock reading taken right after that stop's
    prompt returned.  When several stops carry the same sequence number the
    entry is that of the last of them; other keys of the dictionary are not
    touched. *)
Theorem complete_loop_records_each_prompt_time
  (sched todo : list Stop) (st : state) (times : list datetime)
  (rest : list event) :
  stdin st = (map Enter times ++ rest)%list ->
  length times = length todo ->
  exists st',
    main_loop sched todo st = (Ok tt, st')
    /\ stdin st' = rest
    /\ (forall i s t,
          todo !! i = Some s -> times !! i = Some t ->
          (forall j sj, (i < j)%nat -> todo !! j = Some sj ->
                        sequence sj <> sequence s) ->
          actual_times st' !! sequence s = Some t)
    /\ (forall k, k ∉ sequences todo ->
                  actual_times st' !! k = actual_times st !! k).
Proof.
  intros Hin Hlen.
  destruct (main_loop_complete_record sched todo st times rest Hin Hlen)
    as (st' & Hrun & Hrec & Hrest & _).
  exists st'. rewrite Hrec. repeat split; [done|done| |].
  - intros i s t. apply record_after_last.
  - intros k. apply record_after_notin.
Qed.

Lemma complete_loop_records_each_prompt_time_witness :
  let on_day h m sec := mk_datetime 2024 5 17 h m sec 0 in
  let sched := [ mk_stop 1 "09:43" "A" (on_day 9 43 0);
                 mk_stop 1 "09:45" "B" (on_day 9 45 0) ] in
  let st := mk_state ∅ []
              [Enter (on_day 9 44 30); Enter (on_day 9 47 0); CtrlC]
              (on_day 9 40 0) ∅ true in
  exists st',
    main_loop sched sched st = (Ok tt, st')
    /\ stdin st' = [CtrlC]
    /\ actual_times st' !! 1 = Some (on_day 9 47 0).
Proof.
  intros on_day sched st.
  destruct (complete_loop_records_each_prompt_time sched sched st
              [on_day 9 44 30; on_day 9 47 0] [CtrlC] eq_refl eq_refl)
    as (st' & Hrun & Hrest & Hrec & _).
  exists st'. split; [exact Hrun|]. split; [exact Hrest|].
  apply (Hrec 1%nat (mk_stop 1 "09:45" "B" (on_day 9 45 0)) (on_day 9 47 0)
           eq_refl eq_refl).
  intros [|[|j]] sj Hj Hsj; [lia|lia|discriminate].
Defined.


(** X4.  After a complete run over a schedule with unique sequence numbers
    every stop is visited, so the nearest earlier visited stop is the
    previous stop of the schedule.  In the tail view printed and in the file
    exported from the state the loop leaves, the line and the row of a stop
    are those of the loop bodies entered with the stop's own prompt time and
    the prompt time of the stop just before it: the first stop has the
    placeholder as travel segment, every later stop the whole seconds
    between the two prompt times. *)
Theorem complete_run_travel_is_between_consecutive_stops
  (sched : list Stop) (st : state) (times : list datetime)
  (rest : list event) :
  NoDup (sequences sched) ->
  stdin st = (map Enter times ++ rest)%list ->
  length times = length sched ->
  exists st',
    main_loop sched sched st = (Ok tt, st')
    /\ forall i s t,
         sched !! i = Some s -> times !! i = Some t ->
         exists st_view st_csv content,
           let prev_actual :=
             match i with O => None | S j => times !! j end in
           let v := tail_row s (Some t) prev_actual in
           let e := csv_row s (Some t) prev_actual in
           print_tail_view sched st' = (Ok tt, st_view)
           /\ stdout st_view !! (length (stdout st') + 2 + i)%nat
              = Some (printed (tail_line v))
           /\ save_csv sched st' = (Ok tt, st_csv)
           /\ files st_csv !! output_csv = Some content
           /\ content !! (1 + i)%nat = Some (csv_cells e)
           /\ v_actual v = strftime_HMS t
           /\ csv_cells e !! 3%nat = Some (strftime_Ymd_HMS t)
           /\ match i with
              | O => v_travel v = "-" /\ csv_cells e !! 6%nat = Some ""
              | S j =>
                  exists p,
                    times !! j = Some p
                    /\ v_travel v
                       = travel_text (int_total_seconds (sub t p))
                    /\ csv_cells e !! 6%nat
                       = Some (travel_text (int_total_seconds (sub t p)))
              end.
Proof.
  intros Hnd Hin Hlen.
  destruct (main_loop_complete_record sched sched st times rest Hin Hlen)
    as (st' & Hrun & Hrec & _).
  exists st'. split; [done|]. intros i s t Hs Ht.
  assert (Hvisited : forall k sk tk,
             sched !! k = Some sk -> times !! k = Some tk ->
             actual_times st' !! sequence sk = Some tk).
  { intros k sk tk Hk Htk. rewrite Hrec.
    apply (record_after_last _ _ _ k); [done|done|].
    by apply nodup_no_later_duplicate. }
  assert (Hprev : nearest_visited (actual_times st') sched i
                  = match i with O => None | S j => times !! j end).
  { destruct i as [|j]; [done|].
    assert (is_Some (sched !! j)) as [sj Hsj].
    { apply lookup_lt_is_Some. apply lookup_lt_Some in Hs. lia. }
    assert (is_Some (times !! j)) as [p Hp].
    { apply lookup_lt_is_Some. apply lookup_lt_Some in Ht. lia. }
    simpl nearest_visited. rewrite Hsj. simpl.
    by rewrite (Hvisited _ _ _ Hsj Hp), Hp. }
  destruct (print_tail_view_line sched st' i s Hs)
    as (st_view & Hview & Hline).
  destruct (save_csv_row sched st' i s Hs)
    as (st_csv & content & Hcsv & Hfile & _ & Hrow).
  rewrite (Hvisited _ _ _ Hs Ht), Hprev in Hline, Hrow.
  exists st_view, st_csv, content. cbv zeta.
  do 5 (split; [done|]).
  rewrite tail_row_visited, csv_row_visited.
  split; [done|]. split; [done|].
  destruct i as [|j]; [done|].
  assert (is_Some (times !! j)) as [p Hp].
  { apply lookup_lt_is_Some. apply lookup_lt_Some in Ht. lia. }
  exists p. rewrite Hp. done.
Qed.

Lemma complete_run_travel_is_between_consecutive_stops_witness :
  let on_day h m sec := mk_datetime 2024 5 17 h m sec 0 in
  let sched := [ mk_stop 1 "09:43" "A" (on_day 9 43 0);
                 mk_stop 2 "09:45" "B" (on_day 9 45 0) ] in
  let st := mk_state ∅ [] [Enter (on_day 9 44 30); Enter (on_day 9 47 0)]
              (on_day 9 40 0) ∅ true in
  exists st' st_csv content row,
    main_loop sched sched st = (Ok tt, st')
    /\ save_csv sched st' = (Ok tt, st_csv)
    /\ files st_csv !! output_csv = Some content
    /\ content !! 2%nat = Some row
    /\ row !! 6%nat = Some "2m 30s".
Proof.
  intros on_day sched st.
  destruct (complete_run_travel_is_between_consecutive_stops sched st
              [on_day 9 44 30; on_day 9 47 0] [])
    as (st' & Hrun & Hrows).
  - apply (bool_decide_unpack _). vm_compute. exact I.
  - reflexivity.
  - reflexivity.
  - destruct (Hrows 1%nat (mk_stop 2 "09:45" "B" (on_day 9 45 0))
                (on_day 9 47 0) eq_refl eq_refl)
      as (st_view & st_csv & content & _ & _ & Hcsv & Hfile & Hrow & _ & _
          & p & Hp & _ & Hcell).
    exists st', st_csv, content. eexists.
    split; [exact Hrun|]. split; [exact Hcsv|]. split; [exact Hfile|].
    split; [exact Hrow|].
    injection Hp as <-. exact Hcell.
Defined.

(** X5.  When the input ends or is interrupted at the prompt of a stop, the
    loop raises [EOFError] in the first case and [KeyboardInterrupt] in the
    second; the last thing written is the prompt of that stop, and the
    record holds the arrivals logged before it, nothing else being added. *)
Theorem interrupted_loop_stops_at_pending_prompt
  (sched todo : list Stop) (st : state) (times : list datetime)
  (rest : list event) (s : Stop) :
  stdin st = (map Enter times ++ rest)%list ->
  todo !! length times = Some s ->
  rest = [] \/ (exists tl, rest = CtrlC :: tl) ->
  exists e st',
    main_loop sched todo st = (Raise e, st')
    /\ (rest = [] -> e = EOFError)
    /\ (rest <> [] -> e = KeyboardInterrupt)
    /\ last (stdout st') = Some (prompt_of s)
    /\ (forall i si t,
          todo !! i = Some si -> times !! i = Some t ->
          (forall j sj, (i < j < length times)%nat -> todo !! j = Some sj ->
                        sequence sj <> sequence si) ->
          actual_times st' !! sequence si = Some t)
    /\ (forall k, k ∉ sequences (take (length times) todo) ->
                  actual_times st' !! k = actual_times st !! k).
Proof.
  intros Hin Hs Hrest.
  destruct (main_loop_interrupted_record sched todo st times rest s
              Hin Hs Hrest) as (st' & Hrun & Hrec & Hlast & _).
  eexists _, st'. split; [exact Hrun|]. rewrite Hrec.
  split; [by intros ->|]. split; [by destruct rest|]. split; [done|].
  split.
  - intros i si t Hi Ht Hdup.
    assert (Hlt : (i < length times)%nat) by by eapply lookup_lt_Some.
    apply (record_after_last _ _ _ i); [|done|].
    + by rewrite lookup_take_lt.
    + intros j sj Hj Hsj.
      destruct (decide (j < length times)%nat) as [Hjl|Hjl].
      * rewrite lookup_take_lt in Hsj by done. apply (Hdup j); [lia|done].
      * rewrite lookup_take_ge in Hsj by lia. done.
  - intros k. apply record_after_notin.
Qed.

Lemma interrupted_loop_stops_at_pending_prompt_witness :
  let on_day h m sec := mk_datetime 2024 5 17 h m sec 0 in
  let sched := [ mk_stop 1 "09:43" "A" (on_day 9 43 0);
                 mk_stop 2 "09:45" "B" (on_day 9 45 0) ] in
  let st := mk_state ∅ [] [Enter (on_day 9 44 30)] (on_day 9 40 0) ∅ true in
  exists st',
    main_loop sched sched st = (Raise EOFError, st')
    /\ last (stdout st')
       = Some "Press ENTER at stop 2 - B (scheduled 09:45) -> "
    /\ actual_times st' !! 1 = Some (on_day 9 44 30)
    /\ actual_times st' !! 2 = None.
Proof.
  intros on_day sched st.
  destruct (interrupted_loop_stops_at_pending_prompt sched sched st
              [on_day 9 44 30] [] (mk_stop 2 "09:45" "B" (on_day 9 45 0))
              eq_refl eq_refl (or_introl eq_refl))
    as (e & st' & Hrun & Heof & _ & Hlast & Hrec & Hother).
  exists st'. rewrite (Heof eq_refl) in Hrun.
  split; [exact Hrun|]. split; [exact Hlast|]. split.
  - apply (Hrec 0%nat (mk_stop 1 "09:43" "A" (on_day 9 43 0))
             (on_day 9 44 30) eq_refl eq_refl).
    intros j sj Hj. simpl in Hj. lia.
  - rewrite Hother; [reflexivity|].
    vm_compute. intros H. inversion H as [|? ? ? H']; inversion H'.
Defined.

(* ===================================================================== *)
(** ** Splitting durations *)
(* ===================================================================== *)

Lemma sub_antisym a b : sub b a = - sub a b.
Proof. unfold sub. lia. Qed.

(** X6.  The travel segment is split with floor division, without the sign
    handling of the deviation: minutes and seconds always recombine to the
    signed whole seconds with the seconds between 0 and 59, so an arrival
    time at least a second before the previous one gives negative minutes
    (30 seconds back read ["-1m 30s"]), and two arrivals less than a second
    apart give ["0m 0s"]. *)
Theorem travel_cell_floor_split (s : Stop) (a p : datetime) :
  let t := int_total_seconds (sub a p) in
  v_travel (tail_row s (Some a) (Some p))
  = Py.str (t / 60) ++ "m " ++ Py.str (t mod 60) ++ "s"
  /\ e_travel (csv_row s (Some a) (Some p))
     = v_travel (tail_row s (Some a) (Some p))
  /\ t / 60 * 60 + t mod 60 = t
  /\ 0 <= t mod 60 < 60
  /\ (0 <= sub a p -> 0 <= t / 60)
  /\ (sub a p <= -1000000 -> t / 60 < 0)
  /\ (-1000000 < sub a p < 1000000 ->
      v_travel (tail_row s (Some a) (Some p)) = "0m 0s").
Proof.
  intros t. rewrite tail_row_visited, csv_row_visited.
  cbn [v_travel e_travel]. fold t.
  destruct (int_total_seconds_trunc (sub a p)) as (Hmag & Hpos & Hneg).
  fold t in Hmag, Hpos, Hneg.
  split; [reflexivity|]. split; [reflexivity|].
  split; [pose proof (Z.div_mod t 60); lia|].
  split; [apply Z.mod_pos_bound; lia|].
  split; [intros H; apply Z.div_pos; lia|].
  split; [intros H; apply Z.div_lt_upper_bound; lia|].
  intros H. assert (t = 0) as -> by lia. reflexivity.
Qed.

Lemma travel_cell_floor_split_witness :
  let s := mk_stop 2 "09:45" "B" (mk_datetime 2024 5 17 9 45 0 0) in
  let a := mk_datetime 2024 5 17 9 44 0 0 in
  let p := mk_datetime 2024 5 17 9 44 30 0 in
  v_travel (tail_row s (Some a) (Some p)) = "-1m 30s"
  /\ int_total_seconds (sub a p) / 60 < 0.
Proof.
  intros s a p.
  destruct (travel_cell_floor_split s a p) as (Hv & _ & _ & _ & _ & Hneg & _).
  split; [rewrite Hv; reflexivity|]. apply Hneg. vm_compute. discriminate.
Defined.

(** X7.  Truncation toward zero makes the deviation symmetric: exchanging
    the two instants negates the signed seconds and keeps minutes and
    seconds; the signs are opposite unless the truncated delta is zero, in
    which case both are ["+"]. *)
Theorem format_deviation_swap (a t : datetime) :
  let '(sign1, m1, sec1, total1) := format_deviation a t in
  let '(sign2, m2, sec2, total2) := format_deviation t a in
  total2 = - total1 /\ m2 = m1 /\ sec2 = sec1
  /\ (total1 <> 0 -> sign1 <> sign2)
  /\ (total1 = 0 -> sign1 = "+" /\ sign2 = "+").
Proof.
  unfold format_deviation. cbv zeta.
  rewrite (sub_antisym a t).
  assert (Hopp : int_total_seconds (- sub a t)
                 = - int_total_seconds (sub a t)).
  { unfold int_total_seconds. apply Z.quot_opp_l. lia. }
  rewrite Hopp. set (total := int_total_seconds (sub a t)).
  rewrite Z.abs_opp.
  repeat split.
  - intros Hne.
    destruct (Z.leb_spec 0 total), (Z.leb_spec 0 (- total));
      try discriminate; lia.
  - destruct (Z.leb_spec 0 total); [done|lia].
  - destruct (Z.leb_spec 0 (- total)); [done|lia].
Qed.

Lemma format_deviation_swap_witness :
  let a := mk_datetime 2024 5 17 9 44 30 250000 in
  let t := mk_datetime 2024 5 17 9 43 0 0 in
  format_deviation a t = ("+", 1, 30, 90)
  /\ (format_deviation t a).2 = - 90
  /\ (format_deviation t a).1.1.1 <> "+".
Proof.
  intros a t. pose proof (format_deviation_swap a t) as H.
  change (format_deviation a t) with ("+", 1, 30, 90) in H.
  destruct (format_deviation t a) as [[[sign2 m2] sec2] total2].
  destruct H as (Ht & _ & _ & Hs & _).
  split; [reflexivity|]. split; [exact Ht|].
  simpl. intros ->. apply Hs; [discriminate|reflexivity].
Defined.

(* ===================================================================== *)
(** ** Layout, export and tail view *)
(* ===================================================================== *)

Section Padding.

Lemma len_app s1 s2 : Py.len (s1 ++ s2) = (Py.len s1 + Py.len s2)%nat.
Proof.
  induction s1 as [|c r IH]; simpl; [done|].
  destruct (Py.is_continuation c); simpl; lia.
Qed.

Lemma append_empty_r s : s ++ "" = s.
Proof.
  induction s as [|c r IH]; [done|].
  change (String c (r ++ "") = String c r). by rewrite IH.
Qed.

Lemma ljust_long w s : (w <= Py.len s)%nat -> Py.ljust w s = s.
Proof.
  intros H. unfold Py.ljust.
  replace (w - Py.len s)%nat with 0%nat by lia. apply append_empty_r.
Qed.

Lemma len_color total : Py.len (color_for_deviation total) = 5%nat.
Proof.
  destruct (color_for_deviation_cases total) as [[_ ->]|[[_ ->]|[_ ->]]];
    reflexivity.
Qed.

End Padding.

(** X8.  In the line [print_tail_view] writes for a stop, the Deviation
    field of width 12 counts the colour codes: the cell of a visited stop is
    always longer than twelve characters, so nothing is added between it and
    the single blank before the travel segment, while the ["-"] of an
    unvisited stop is followed by eleven blanks of padding. *)
Theorem deviation_cell_is_never_padded
  (sched : list Stop) (st : state) (i : nat) (s : Stop) :
  sched !! i = Some s ->
  exists st',
    print_tail_view sched st = (Ok tt, st')
    /\ match actual_times st !! sequence s with
       | Some a =>
           let r :=
             tail_row s (Some a)
               (nearest_visited (actual_times st) sched i) in
           stdout st' !! (length (stdout st) + 2 + i)%nat
           = Some (printed
                     (Py.ljust 3 (Py.str (sequence s)) ++ " "
                      ++ Py.ljust 25 (stop s) ++ " "
                      ++ Py.ljust 6 (strftime_HM (target_time s)) ++ " "
                      ++ Py.ljust 8 (strftime_HMS a) ++ " "
                      ++ v_deviation r ++ " " ++ v_travel r))
           /\ (12 < Py.len (v_deviation r))%nat
       | None =>
           stdout st' !! (length (stdout st) + 2 + i)%nat
           = Some (printed
                     (Py.ljust 3 (Py.str (sequence s)) ++ " "
                      ++ Py.ljust 25 (stop s) ++ " "
                      ++ Py.ljust 6 (strftime_HM (target_time s)) ++ " "
                      ++ "-       " ++ " "
                      ++ "-           " ++ " " ++ "-"))
       end.
Proof.
  intros Hs.
  destruct (print_tail_view_line sched st i s Hs) as (st' & Hrun & Hline).
  exists st'. split; [exact Hrun|].
  destruct (actual_times st !! sequence s) as [a|].
  - cbv zeta. rewrite Hline, tail_row_visited.
    assert (Hlen : (12 < Py.len
                           (color_for_deviation (dev_total a (target_time s))
                            ++ dev_text a (target_time s) ++ RESET))%nat).
    { unfold dev_text, deviation_text.
      rewrite !len_app, len_color.
      change (Py.len "m ") with 2%nat. change (Py.len "s") with 1%nat.
      change (Py.len RESET) with 4%nat.
      assert (Py.len (dev_sign a (target_time s)) = 1%nat); [|lia].
      unfold dev_sign, format_deviation. cbn [fst snd].
      by destruct (0 <=? _). }
    split; [|exact Hlen].
    unfold tail_line.
    cbn [v_seq v_name v_target v_actual v_deviation v_travel].
    by rewrite (ljust_long 12) by lia.
  - by rewrite Hline, tail_row_unvisited.
Qed.

Lemma deviation_cell_is_never_padded_witness :
  let on_day h m sec := mk_datetime 2024 5 17 h m sec 0 in
  let sched := [ mk_stop 1 "09:43" "A" (on_day 9 43 0);
                 mk_stop 2 "09:45" "B" (on_day 9 45 0) ] in
  let st := mk_state (<[1 := on_day 9 44 30]> ∅) [] [] (on_day 9 44 30) ∅
              true in
  exists st',
    print_tail_view sched st = (Ok tt, st')
    /\ stdout st' !! 2%nat
       = Some (printed
                 ("1   A                         09:43  09:44:30 "
                  ++ RED ++ "+1m 30s" ++ RESET ++ " -"))
    /\ stdout st' !! 3%nat
       = Some (printed
                 "2   B                         09:45  -        -            -").
Proof.
  intros on_day sched st.
  destruct (deviation_cell_is_never_padded sched st 0
              (mk_stop 1 "09:43" "A" (on_day 9 43 0)) eq_refl)
    as (st1 & Hrun1 & Hline1).
  destruct (deviation_cell_is_never_padded sched st 1
              (mk_stop 2 "09:45" "B" (on_day 9 45 0)) eq_refl)
    as (st2 & Hrun2 & Hline2).
  assert (st2 = st1) as -> by congruence.
  exists st1. split; [exact Hrun1|]. split; [|exact Hline2].
  change (actual_times st !! sequence (mk_stop 1 "09:43" "A" (on_day 9 43 0)))
    with (Some (on_day 9 44 30)) in Hline1.
  cbv zeta in Hline1. destruct Hline1 as [Hline1 _]. exact Hline1.
Defined.


(** X9.  Exporting replaces the output file whatever it held, leaves every
    other file, the record and the console alone, and exporting again
    changes nothing. *)
Theorem export_overwrites_and_is_idempotent (sched : list Stop) (st : state) :
  exists st',
    save_csv sched st = (Ok tt, st')
    /\ save_csv sched st' = (Ok tt, st')
    /\ (forall name, name <> output_csv ->
                     files st' !! name = files st !! name)
    /\ (forall old : list (list string),
          files (save_csv sched
                   (with_files st (<[output_csv := old]> (files st)))).2
            !! output_csv
          = files st' !! output_csv)
    /\ actual_times st' = actual_times st
    /\ stdout st' = stdout st
    /\ stdin st' = stdin st.
Proof.
  eexists. split; [apply save_csv_run|].
  split.
  { rewrite save_csv_run. unfold with_files. simpl.
    by rewrite insert_insert_eq. }
  split.
  { intros name Hne. simpl. by rewrite lookup_insert_ne. }
  split.
  { intros old. rewrite save_csv_run. simpl.
    by rewrite !lookup_insert_eq. }
  done.
Qed.

Lemma export_overwrites_and_is_idempotent_witness :
  let on_day h m sec := mk_datetime 2024 5 17 h m sec 0 in
  let sched := [ mk_stop 1 "09:43" "A" (on_day 9 43 0) ] in
  let st := mk_state (<[1 := on_day 9 44 30]> ∅) [] [] (on_day 9 50 0)
              (<["notes.txt" := [["keep"]]]>
                 (<[output_csv := [["stale"]]]> ∅)) true in
  exists st',
    save_csv sched st = (Ok tt, st')
    /\ files st' !! "notes.txt" = Some [["keep"]].
Proof.
  intros on_day sched st.
  destruct (export_overwrites_and_is_idempotent sched st)
    as (st' & Hrun & _ & Hother & _).
  exists st'. split; [exact Hrun|].
  rewrite Hother; [reflexivity|discriminate].
Defined.

Lemma view_lines_length rec sched :
  length (view_lines rec sched) = (length sched + 3)%nat.
Proof.
  unfold view_lines. simpl. rewrite length_app, length_map, view_rows_length.
  simpl. lia.
Qed.

(** X10.  Every call of [print_tail_view] writes the banner, the header, one
    line per stop of the schedule and the footer, however many stops have
    been visited; the line of a stop without a recorded arrival shows the
    placeholder in the Actual, Deviation and From-prev columns. *)
Theorem tail_view_has_one_line_per_stop (sched : list Stop) (st : state) :
  exists st',
    print_tail_view sched st = (Ok tt, st')
    /\ length (stdout st') = (length (stdout st) + length sched + 3)%nat
    /\ stdout st' !! length (stdout st) = Some (printed status_banner)
    /\ stdout st' !! (length (stdout st) + 1)%nat = Some (printed tail_header)
    /\ last (stdout st') = Some (printed status_footer)
    /\ forall i s,
         sched !! i = Some s ->
         actual_times st !! sequence s = None ->
         stdout st' !! (length (stdout st) + 2 + i)%nat
         = Some (printed
                   (tail_line
                      (mk_view_row (sequence s) (stop s)
                         (strftime_HM (target_time s)) "-" "-" "-"))).
Proof.
  eexists. split; [apply print_tail_view_run|]. simpl.
  split; [rewrite length_app, view_lines_length; lia|].
  split; [by rewrite lookup_app_r, Nat.sub_diag by lia|].
  split.
  { rewrite lookup_app_r by lia.
    by replace (length (stdout st) + 1 - length (stdout st))%nat
      with 1%nat by lia. }
  split.
  { unfold view_lines. by rewrite !app_assoc, last_snoc. }
  intros i s Hs Hnone.
  rewrite lookup_app_r by lia.
  replace (length (stdout st) + 2 + i - length (stdout st))%nat
    with (2 + i)%nat by lia.
  erewrite view_lines_lookup; [reflexivity|].
  by rewrite (view_rows_lookup _ _ _ _ _ Hs), Hnone, tail_row_unvisited.
Qed.

Lemma tail_view_has_one_line_per_stop_witness :
  let on_day h m sec := mk_datetime 2024 5 17 h m sec 0 in
  let sched := [ mk_stop 1 "09:43" "A" (on_day 9 43 0);
                 mk_stop 2 "09:45" "B" (on_day 9 45 0) ] in
  let st := mk_state (<[1 := on_day 9 44 30]> ∅) ["earlier"] []
              (on_day 9 44 30) ∅ true in
  exists st',
    print_tail_view sched st = (Ok tt, st')
    /\ stdout st' !! 4%nat
       = Some (printed
                 "2   B                         09:45  -        -            -").
Proof.
  intros on_day sched st.
  destruct (tail_view_has_one_line_per_stop sched st)
    as (st' & Hrun & _ & _ & _ & _ & Hrow).
  exists st'. split; [exact Hrun|].
  apply (Hrow 1%nat (mk_stop 2 "09:45" "B" (on_day 9 45 0)));
    reflexivity.
Defined.

(* ===================================================================== *)
(** ** One step of the main loop *)
(* ===================================================================== *)

(** X12.  A step of the main loop that meets a line of input writes the
    prompt, stores the clock reading under the stop's sequence number,
    confirms it with that same reading as date and time, and prints a tail
    view that already shows the stop as visited at that reading; the export
    later writes the very date and time of the confirmation. *)
Theorem log_arrival_step_output
  (sched : list Stop) (s : Stop) (st : state) (now : datetime)
  (evs : list event) :
  stdin st = Enter now :: evs ->
  exists st',
    log_arrival sched s st = (Ok tt, st')
    /\ actual_times st' = <[sequence s := now]> (actual_times st)
    /\ clock st' = now /\ stdin st' = evs /\ files st' = files st
    /\ stdout st'
       = (stdout st
          ++ [ prompt_of s;
               printed ("Logged: " ++ stop s ++ " at "
                        ++ strftime_Ymd_HMS now) ]
          ++ view_lines (actual_times st') sched)%list
    /\ (forall prev,
          e_actual (csv_row s (actual_times st' !! sequence s) prev)
          = strftime_Ymd_HMS now)
    /\ forall i,
         sched !! i = Some s ->
         exists r,
           stdout st' !! (length (stdout st) + 4 + i)%nat
           = Some (printed (tail_line r))
           /\ v_seq r = sequence s
           /\ v_actual r = strftime_HMS now.
Proof.
  intros Hin. rewrite log_arrival_run, Hin. eexists. split; [reflexivity|].
  cbn [actual_times clock stdin files stdout].
  repeat (split; [reflexivity|]).
  split.
  { intros prev. by rewrite lookup_insert_eq, csv_row_visited. }
  intros i Hs.
  pose proof (view_rows_lookup (<[sequence s := now]> (actual_times st))
                sched None i s Hs) as Hrow.
  rewrite lookup_insert_eq, tail_row_visited in Hrow.
  eexists. split.
  - rewrite lookup_app_r by lia.
    replace (length (stdout st) + 4 + i - length (stdout st))%nat
      with (2 + (2 + i))%nat by lia.
    change ((?a ++ ?b ++ ?c)%list !! (2 + (2 + i))%nat)
      with (c !! (2 + i)%nat).
    by apply view_lines_lookup.
  - split; reflexivity.
Qed.

Lemma log_arrival_step_output_witness :
  let on_day h m sec := mk_datetime 2024 5 17 h m sec 0 in
  let s := mk_stop 1 "09:43" "A" (on_day 9 43 0) in
  let st := mk_state ∅ [] [Enter (on_day 9 44 30)] (on_day 9 40 0) ∅ true in
  exists st',
    log_arrival [s] s st = (Ok tt, st')
    /\ stdout st' !! 1%nat = Some (printed "Logged: A at 2024-05-17 09:44:30")
    /\ clock st' = on_day 9 44 30.
Proof.
  intros on_day s st.
  destruct (log_arrival_step_output [s] s st (on_day 9 44 30) [] eq_refl)
    as (st' & Hrun & _ & Hclk & _ & _ & Hout & _).
  exists st'. split; [exact Hrun|]. split; [|exact Hclk].
  rewrite Hout. reflexivity.
Defined.
